(** * Redemption engine of enterprise-subsidy: a shallow embedding

    The development follows [enterprise_subsidy/apps/subsidy/models.py]
    (the [Subsidy] model: pricing, redeemability, redemption, commit and
    rollback) and [enterprise_subsidy/apps/api/v1/views/content_metadata.py]
    (the content-metadata read path).

    Python integers are [Z]; Python [float] is IEEE binary64, written with
    the executable specification of the Standard Library ([SpecFloat]);
    exceptions are values of [Py.Exception]; code that touches the database
    or the enrollment service runs in a state-and-exception monad whose
    state survives a raised exception, as a database does. *)

From Stdlib Require Import ZArith List String Ascii Bool Lia DecimalString.
From Stdlib Require Import Floats.SpecFloat.
Import ListNotations.

Local Open Scope string_scope.
Local Open Scope Z_scope.
Local Open Scope list_scope.

(* ===================================================================== *)
(** ** Python values, exceptions and the effect monad *)
(* ===================================================================== *)

Module Py.

(** The exceptions the modelled code raises or lets through. *)
Inductive Exception : Type :=
| ValueError (msg : string)
| TypeError (msg : string)
| OverflowError (msg : string)
| AttributeError (msg : string)
| HTTPError (status_code : Z) (detail : string)
| OtherException (name : string).

Inductive Result (A : Type) : Type :=
| Ok (a : A)
| Raise (e : Exception).

Arguments Ok {A} a.
Arguments Raise {A} e.

(** A computation over a mutable store [S]: it yields a value or raises,
    and in both cases leaves a store behind. *)
Definition M (S A : Type) : Type := S -> Result A * S.

Definition ret {S A} (a : A) : M S A := fun s => (Ok a, s).

Definition raise {S A} (e : Exception) : M S A := fun s => (Raise e, s).

Definition bind {S A B} (m : M S A) (k : A -> M S B) : M S B :=
  fun s =>
    match m s with
    | (Ok a, s') => k a s'
    | (Raise e, s') => (Raise e, s')
    end.

(** [try: body / except Exception as exc: handler(exc)]. *)
Definition try_except {S A} (body : M S A) (handler : Exception -> M S A) : M S A :=
  fun s =>
    match body s with
    | (Ok a, s') => (Ok a, s')
    | (Raise e, s') => handler e s'
    end.

(** A call that cannot touch the store (a pure helper that may raise). *)
Definition lift {S A} (r : Result A) : M S A := fun s => (r, s).

(** Truthiness of [str | None]: [None] and the empty string are falsy. *)
Definition truthy_str (v : option string) : bool :=
  match v with
  | None => false
  | Some s => negb (String.eqb s "")
  end.

End Py.

Export Py.

Declare Scope py_scope.
Delimit Scope py_scope with py.
Notation "x <- m ;; k" := (Py.bind m (fun x => k))
  (at level 100, m at next level, right associativity) : py_scope.
Notation "' p <- m ;; k" := (Py.bind m (fun x => match x with p => k end))
  (at level 100, p pattern, m at next level, right associativity) : py_scope.
Notation "m ;;; k" := (Py.bind m (fun _ => k))
  (at level 100, right associativity) : py_scope.

(* ===================================================================== *)
(** ** IEEE binary64: Python's [float] *)
(* ===================================================================== *)

Module Float64.

Definition prec : Z := 53.
Definition emax : Z := 1024.

Definition float : Type := spec_float.

(** [float(n)] for an integer [n]: the nearest double. *)
Definition of_Z (n : Z) : float := binary_normalize prec emax n 0 false.

(** [x * y], rounded to nearest, ties to even. *)
Definition mul (x y : float) : float := SFmul prec emax x y.

(** The double nearest to [(-1)^neg * digits / 10^scale]: one correctly
    rounded division of the two exact integers, which is the value a
    correctly rounded decimal-to-binary conversion returns. *)
Definition of_decimal (neg : bool) (digits : Z) (scale : nat) : float :=
  match digits with
  | Zpos m =>
      SFdiv prec emax (S754_finite neg m 0)
            (S754_finite false (Z.to_pos (10 ^ Z.of_nat scale)) 0)
  | _ => S754_zero neg
  end.

(** [int(x)]: truncation toward zero; infinities and NaN raise. *)
Definition to_int (x : float) : Result Z :=
  match x with
  | S754_zero _ => Ok 0
  | S754_finite s m e => Ok (cond_Zopp s (Z.shiftl (Zpos m) e))
  | S754_infinity _ => Raise (OverflowError "cannot convert float infinity to integer")
  | S754_nan => Raise (ValueError "cannot convert float NaN to integer")
  end.

(** *** Reading a decimal literal *)

Definition digit_of (c : ascii) : option Z :=
  let n := nat_of_ascii c in
  if (Nat.leb 48 n && Nat.leb n 57)%bool then Some (Z.of_nat (n - 48)) else None.

(** Consume the leading digits of [s]: their value appended to [acc],
    how many there were, and what is left. *)
Fixpoint take_digits (s : string) (acc : Z) (count : nat) : Z * nat * string :=
  match s with
  | EmptyString => (acc, count, EmptyString)
  | String c rest =>
      match digit_of c with
      | Some d => take_digits rest (10 * acc + d) (S count)
      | None => (acc, count, s)
      end
  end.

Definition take_sign (s : string) : bool * string :=
  match s with
  | String "-" rest => (true, rest)
  | String "+" rest => (false, rest)
  | _ => (false, s)
  end.

(** [float(s)] for a string [s], on plain decimal literals
    [[+-]digits[.digits]] (the form in which the catalog lists prices).
    The other spellings Python accepts (exponents, [inf], [nan],
    surrounding blanks, underscores) are outside this fragment and are
    reported like any malformed literal. *)
Definition of_string (s : string) : Result float :=
  let bad := Raise (ValueError (String.append "could not convert string to float: " s)) in
  let '(neg, s1) := take_sign s in
  let '(int_part, n_int, s2) := take_digits s1 0 0 in
  match s2 with
  | EmptyString =>
      if Nat.eqb n_int 0 then bad else Ok (of_decimal neg int_part 0)
  | String "." s3 =>
      let '(all_digits, n_frac, s4) := take_digits s3 int_part 0 in
      match s4 with
      | EmptyString =>
          if Nat.eqb (n_int + n_frac) 0 then bad
          else Ok (of_decimal neg all_digits n_frac)
      | _ => bad
      end
  | _ => bad
  end.

End Float64.

(* ===================================================================== *)
(** ** The catalog's listed price *)
(* ===================================================================== *)

(** What [EnterpriseCatalogApiClient.get_course_price] hands back: the
    listed price as the catalog's JSON has it (a decimal string, or a
    number for per-run seat prices), or nothing. *)
Inductive ListedPrice : Type :=
| PriceStr (s : string)
| PriceInt (n : Z)
| PriceNone.

(** [float(price)]. *)
Definition float_of_price (price : ListedPrice) : Result Float64.float :=
  match price with
  | PriceStr s => Float64.of_string s
  | PriceInt n => Ok (Float64.of_Z n)
  | PriceNone =>
      Raise (TypeError "float() argument must be a string or a real number, not 'NoneType'")
  end.

Definition CENTS_PER_DOLLAR : Z := 100.

(** The arithmetic of [Subsidy.price_for_content]:
    [int(float(price) * CENTS_PER_DOLLAR)]. *)
Definition price_in_cents (price : ListedPrice) : Result Z :=
  match float_of_price price with
  | Ok f => Float64.to_int (Float64.mul f (Float64.of_Z CENTS_PER_DOLLAR))
  | Raise e => Raise e
  end.

(* ===================================================================== *)
(** ** The ledger (openedx_ledger) and its transaction table *)
(* ===================================================================== *)

Module Ledger.

Inductive TransactionStateChoices : Type :=
| CREATED
| PENDING
| COMMITTED
| FAILED.

Definition state_eqb (a b : TransactionStateChoices) : bool :=
  match a, b with
  | CREATED, CREATED | PENDING, PENDING
  | COMMITTED, COMMITTED | FAILED, FAILED => true
  | _, _ => false
  end.

(** One row of the transaction table. Primary keys (uuids) and ledger
    ids are integers here; nullable columns are options. *)
Record Transaction : Type := {
  uuid : Z;
  ledger : Z;
  idempotency_key : string;
  quantity : Z;
  state : TransactionStateChoices;
  lms_user_id : option Z;
  content_key : option string;
  subsidy_access_policy_uuid : option string;
  reference_id : option string;
  reference_type : option string
}.

Definition Table : Type := list Transaction.

(** Attribute assignments on a transaction object. *)
Definition set_reference (t : Transaction) (rid rtype : option string) : Transaction :=
  {| uuid := uuid t; ledger := ledger t; idempotency_key := idempotency_key t;
     quantity := quantity t; state := state t; lms_user_id := lms_user_id t;
     content_key := content_key t;
     subsidy_access_policy_uuid := subsidy_access_policy_uuid t;
     reference_id := rid; reference_type := rtype |}.

Definition set_state (t : Transaction) (st : TransactionStateChoices) : Transaction :=
  {| uuid := uuid t; ledger := ledger t; idempotency_key := idempotency_key t;
     quantity := quantity t; state := st; lms_user_id := lms_user_id t;
     content_key := content_key t;
     subsidy_access_policy_uuid := subsidy_access_policy_uuid t;
     reference_id := reference_id t; reference_type := reference_type t |}.

(** Column tests of the ORM's [filter(column=value)]. *)
Definition in_ledger (l : Z) (t : Transaction) : bool := Z.eqb (ledger t) l.

Definition has_state (st : TransactionStateChoices) (t : Transaction) : bool :=
  state_eqb (state t) st.

Definition has_learner (learner : Z) (t : Transaction) : bool :=
  match lms_user_id t with
  | Some u => Z.eqb u learner
  | None => false
  end.

Definition has_content (key : string) (t : Transaction) : bool :=
  match content_key t with
  | Some k => String.eqb k key
  | None => false
  end.

Definition has_key (l : Z) (key : string) (t : Transaction) : bool :=
  in_ledger l t && String.eqb (idempotency_key t) key.

(** [QuerySet.first()] on a query without an explicit order: the row
    with the least primary key, [None] when there is no row. *)
Fixpoint first (rows : list Transaction) : option Transaction :=
  match rows with
  | [] => None
  | r :: rest =>
      match first rest with
      | None => Some r
      | Some m => if Z.leb (uuid r) (uuid m) then Some r else Some m
      end
  end.

(** Modelled from the spec: [Ledger.balance()] of openedx_ledger, "the
    current signed sum of committed transactions" of the ledger. *)
Definition balance (l : Z) (tbl : Table) : Z :=
  fold_right Z.add 0
    (map quantity (filter (has_state COMMITTED) (filter (in_ledger l) tbl))).

(** A primary key no row of the table has (the role of [uuid4()]). *)
Definition fresh_uuid (tbl : Table) : Z :=
  1 + fold_right Z.max 0 (map uuid tbl).

(** Modelled from the spec: [ledger_api.create_transaction] of
    openedx_ledger, the "atomic upsert-on-key": a row already stored in
    the ledger under the idempotency key is returned as it is, otherwise
    a row in state "created" is inserted and returned. *)
Definition create_transaction (l : Z) (qty : Z) (key : string)
    (learner : option Z) (content : option string) (policy : option string)
    (tbl : Table) : Transaction * Table :=
  match find (has_key l key) tbl with
  | Some existing => (existing, tbl)
  | None =>
      let t := {| uuid := fresh_uuid tbl; ledger := l; idempotency_key := key;
                  quantity := qty; state := CREATED; lms_user_id := learner;
                  content_key := content;
                  subsidy_access_policy_uuid := policy;
                  reference_id := None; reference_type := None |} in
      (t, tbl ++ [t])
  end.

(** Modelled from the spec: [transaction.save()], which "persists state
    changes": the row with the object's primary key is overwritten, and
    inserted when the table has none. *)
Definition save (t : Transaction) (tbl : Table) : Table :=
  if existsb (fun r => Z.eqb (uuid r) (uuid t)) tbl
  then map (fun r => if Z.eqb (uuid r) (uuid t) then t else r) tbl
  else tbl ++ [t].

End Ledger.

(* ===================================================================== *)
(** ** The Subsidy model *)
(* ===================================================================== *)

Inductive SubsidyReferenceChoices : Type := OPPORTUNITY_PRODUCT_ID.

(** The columns of [Subsidy]; [unit] is the stored name of one of the
    ledger's [UnitChoices]. The ledger column is nullable in the schema;
    the model takes the bound ledger as present, as every method below
    dereferences it unconditionally. *)
Record Subsidy : Type := {
  uuid : Z;
  title : option string;
  starting_balance : Z;
  ledger : Z;
  unit : string;
  reference_id : option string;
  reference_type : SubsidyReferenceChoices;
  enterprise_customer_uuid : Z;
  internal_only : bool;
  active_datetime : option Z;
  expiration_datetime : option Z
}.

Definition OCM_ENROLLMENT_REFERENCE_TYPE : string := "enterprise_fufillment_source_uuid".

(** The services the engine calls and does not implement. *)
Class Collaborators : Type := {
  (** The state of the enrollment service (the LMS), opaque to the engine. *)
  Lms : Type;
  (** [EnterpriseCatalogApiClient.get_course_price(customer, content_key)]:
      a read of the catalog. [price_for_content] memoises it with
      [lru_cache]; for a catalog that answers one question one way the
      memo table cannot be observed, and it is left out. *)
  get_course_price : Z -> string -> Result ListedPrice;
  (** [EnterpriseApiClient.enroll(learner_id, content_key, transaction)]:
      acts on the enrollment service and returns a reference id, or
      raises. *)
  enroll : Z -> string -> Ledger.Transaction -> Lms -> Result (option string) * Lms;
  (** [openedx_ledger.utils.create_idempotency_key_for_transaction]
      (ledger, quantity, learner_id, content_key, policy uuid). *)
  create_idempotency_key_for_transaction : Z -> Z -> Z -> string -> string -> string
}.

(** Everything the engine can read or change: the transaction table, the
    enrollment service, and the wall clock behind [now()]. *)
Record World `{Collaborators} : Type := {
  table : Ledger.Table;
  lms : Lms;
  clock : Z
}.

Section Engine.

Context `{Collaborators}.

Definition with_table (w : World) (tbl : Ledger.Table) : World :=
  {| table := tbl; lms := lms w; clock := clock w |}.

Definition with_lms (w : World) (s : Lms) : World :=
  {| table := table w; lms := s; clock := clock w |}.

Definition Eff (A : Type) : Type := M World A.

Definition now : Eff Z := fun w => (Ok (clock w), w).

Local Open Scope py_scope.

Definition price_for_content (self : Subsidy) (content_key : string) : Result Z :=
  match get_course_price (enterprise_customer_uuid self) content_key with
  | Ok price => price_in_cents price
  | Raise e => Raise e
  end.

Definition current_balance (self : Subsidy) : Eff Z :=
  fun w => (Ok (Ledger.balance (ledger self) (table w)), w).

Definition create_transaction (self : Subsidy) (idempotency_key : string)
    (quantity : Z) (lms_user_id : option Z) (content_key : option string)
    (subsidy_access_policy_uuid : option string) : Eff Ledger.Transaction :=
  fun w =>
    let '(t, tbl) :=
      Ledger.create_transaction (ledger self) quantity idempotency_key
        lms_user_id content_key subsidy_access_policy_uuid (table w) in
    (Ok t, with_table w tbl).

(** [ledger_transaction.save()]. *)
Definition save (t : Ledger.Transaction) : Eff Datatypes.unit :=
  fun w => (Ok tt, with_table w (Ledger.save t (table w))).

(** The Python method mutates [ledger_transaction] in place and returns
    nothing; here the mutated object is the result, and a raise leaves
    the caller with the object it passed in. *)
Definition commit_transaction (self : Subsidy) (ledger_transaction : Ledger.Transaction)
    (reference_id reference_type : option string) : Eff Ledger.Transaction :=
  t1 <- (if truthy_str reference_id then
           if negb (truthy_str reference_type) then
             raise (ValueError "A reference_id was provided without a reference_type.")
           else ret (Ledger.set_reference ledger_transaction reference_id reference_type)
         else ret ledger_transaction) ;;
  let t2 := Ledger.set_state t1 Ledger.COMMITTED in
  save t2 ;;;
  ret t2.

Definition rollback_transaction (self : Subsidy) (ledger_transaction : Ledger.Transaction)
    : Eff Datatypes.unit :=
  ret tt.

Definition enterprise_client_enroll (learner_id : Z) (content_key : string)
    (ledger_transaction : Ledger.Transaction) : Eff (option string) :=
  fun w =>
    let '(r, s) := enroll learner_id content_key ledger_transaction (lms w) in
    (r, with_lms w s).

(** The key [_create_redemption] stores the transaction under, its
    [if not idempotency_key:] block: the caller's key when it is truthy
    (neither [None] nor empty), the derived one otherwise. *)
Definition redemption_key (self : Subsidy) (quantity : Z) (learner_id : Z)
    (content_key : string) (subsidy_access_policy_uuid : string)
    (idempotency_key : option string) : string :=
  let derived :=
    create_idempotency_key_for_transaction
      (ledger self) quantity learner_id content_key subsidy_access_policy_uuid in
  match idempotency_key with
  | Some k => if truthy_str idempotency_key then k else derived
  | None => derived
  end.

Definition _create_redemption (self : Subsidy) (learner_id : Z) (content_key : string)
    (subsidy_access_policy_uuid : string) (idempotency_key : option string)
    : Eff Ledger.Transaction :=
  price <- lift (price_for_content self content_key) ;;
  let quantity := -1 * price in
  let idempotency_key :=
    redemption_key self quantity learner_id content_key
      subsidy_access_policy_uuid idempotency_key in
  ledger_transaction <-
    create_transaction self idempotency_key quantity
      (Some learner_id) (Some content_key) (Some subsidy_access_policy_uuid) ;;
  try_except
    (reference_id <- enterprise_client_enroll learner_id content_key ledger_transaction ;;
     commit_transaction self ledger_transaction reference_id
       (Some OCM_ENROLLMENT_REFERENCE_TYPE))
    (fun exc => rollback_transaction self ledger_transaction ;;; raise exc).

Definition is_redeemable (self : Subsidy) (content_key : string) : Eff (bool * Z) :=
  content_price <- lift (price_for_content self content_key) ;;
  balance <- current_balance self ;;
  ret (Z.geb balance content_price, content_price).

Definition all_transactions (self : Subsidy) (w : World) : list Ledger.Transaction :=
  filter (Ledger.in_ledger (ledger self)) (table w).

Definition transactions_for_learner (self : Subsidy) (lms_user_id : Z) (w : World)
    : list Ledger.Transaction :=
  filter (Ledger.has_learner lms_user_id) (all_transactions self w).

Definition transactions_for_content (self : Subsidy) (content_key : string) (w : World)
    : list Ledger.Transaction :=
  filter (Ledger.has_content content_key) (all_transactions self w).

Definition transactions_for_learner_and_content (self : Subsidy) (lms_user_id : Z)
    (content_key : string) (w : World) : list Ledger.Transaction :=
  filter (fun t => Ledger.has_learner lms_user_id t && Ledger.has_content content_key t)
         (all_transactions self w).

Definition get_redemption (self : Subsidy) (learner_id : Z) (content_key : string)
    : Eff (option Ledger.Transaction) :=
  fun w =>
    (Ok (Ledger.first
           (filter (Ledger.has_state Ledger.COMMITTED)
                   (transactions_for_learner_and_content self learner_id content_key w))),
     w).

(** A transaction object is truthy, so the closing [if transaction:] of
    the Python method always takes its first branch. *)
Definition redeem (self : Subsidy) (learner_id : Z) (content_key : string)
    (subsidy_access_policy_uuid : string) (idempotency_key : option string)
    : Eff (option Ledger.Transaction * bool) :=
  existing <- get_redemption self learner_id content_key ;;
  match existing with
  | Some existing_transaction => ret (Some existing_transaction, false)
  | None =>
      '(redeemable, _) <- is_redeemable self content_key ;;
      if negb redeemable then ret (None, false)
      else
        transaction <- _create_redemption self learner_id content_key
                         subsidy_access_policy_uuid idempotency_key ;;
        ret (Some transaction, true)
  end.

End Engine.

(* ===================================================================== *)
(** ** The content-metadata read path *)
(* ===================================================================== *)

(** JSON values as Python sees them after [response.json()]. *)
#[warnings="-register-all"]
Inductive Json : Type :=
| JNull
| JBool (b : bool)
| JNum (n : Z)
| JStr (s : string)
| JList (items : list Json)
| JDict (entries : list (string * Json)).

Module ContentMetadataViewSet.

(** Python truthiness. *)
Definition truthy (v : Json) : bool :=
  match v with
  | JNull => false
  | JBool b => b
  | JNum n => negb (Z.eqb n 0)
  | JStr s => negb (String.eqb s "")
  | JList items => match items with [] => false | _ => true end
  | JDict entries => match entries with [] => false | _ => true end
  end.

(** [d.get(key)]: the value stored under [key], [None] without one. *)
Fixpoint dict_get (d : list (string * Json)) (key : string) : Json :=
  match d with
  | [] => JNull
  | (k, v) :: rest => if String.eqb k key then v else dict_get rest key
  end.

(** Modelled from the spec: the constants of
    [enterprise_subsidy/apps/subsidy/constants.py] the view imports: the
    source "edX", the default "verified" mode and the
    "paid-executive-education" mode. *)
Definition EDX_PRODUCT_SOURCE : string := "edX".
Definition EDX_VERIFIED_COURSE_MODE : string := "verified".
Definition EXECUTIVE_EDUCATION_MODE : string := "paid-executive-education".

Definition HTTP_404_NOT_FOUND : Z := 404.

(** The catalog client the view instantiates. *)
Class EnterpriseCatalogApiClient : Type := {
  (** The pricing oracle: the metadata dict of the content for the
      customer, or a raised [HTTPError] (or another transport error). *)
  get_content_metadata_for_customer : string -> string -> Result (list (string * Json));
  (** The price the metadata lists for a mode; a falsy value when it
      lists none. *)
  price_for_content : list (string * Json) -> string -> Json
}.

Inductive Body : Type :=
| Text (s : string)
| Payload (entries : list (string * Json)).

Record Response : Type := {
  data : Body;
  status : Z
}.

Section View.

Context `{EnterpriseCatalogApiClient}.

(** The [if source_dict := content_data.get('product_source')] block:
    the source shown to the caller and the price mode. A truthy
    [product_source] that is not a dict has no [get]. *)
Definition resolve_source (content_data : list (string * Json)) : Result (Json * string) :=
  let source_dict := dict_get content_data "product_source" in
  if truthy source_dict then
    match source_dict with
    | JDict d => Ok (dict_get d "name", EXECUTIVE_EDUCATION_MODE)
    | _ => Raise (AttributeError "object has no attribute 'get'")
    end
  else Ok (JStr EDX_PRODUCT_SOURCE, EDX_VERIFIED_COURSE_MODE).

(** The body of the [try] block. [enterprise_customer_uuid] is the list
    of values of the query parameter, which the decorator
    [require_at_least_one_query_parameter] hands over non-empty: its
    first value and the others. *)
Definition get_body (content_identifier : string)
    (enterprise_customer_uuid : string * list string) : Result Response :=
  match get_content_metadata_for_customer (fst enterprise_customer_uuid)
                                           content_identifier with
  | Raise e => Raise e
  | Ok content_data =>
      match resolve_source content_data with
      | Raise e => Raise e
      | Ok (content_source, source_mode) =>
          let content_price := price_for_content content_data source_mode in
          if negb (truthy content_price) then
            Ok {| data := Text "Could not find course price in content data payload";
                  status := 404 |}
          else
            Ok {| data := Payload
                            [("content_uuid", dict_get content_data "uuid");
                             ("content_key", dict_get content_data "key");
                             ("source", content_source);
                             ("content_price", content_price)];
                  status := 200 |}
      end
  end.

(** [ContentMetadataViewSet.get]: the [try] block and its
    [except requests.exceptions.HTTPError] clause. The page cache of
    [cache_page(60)] is not modelled. *)
Definition get (content_identifier : string)
    (enterprise_customer_uuid : string * list string) : Result Response :=
  match get_body content_identifier enterprise_customer_uuid with
  | Raise (HTTPError status_code detail) =>
      if Z.eqb status_code 404 then
        Ok {| data := Text "Content not found"; status := HTTP_404_NOT_FOUND |}
      else
        Ok {| data := Text (String.append
                              "Failed to fetch data from catalog service with exc: "
                              detail);
              status := status_code |}
  | other => other
  end.

End View.

End ContentMetadataViewSet.

(* ===================================================================== *)
(** ** A concrete deployment, for running the model *)
(* ===================================================================== *)

Module Demo.

Definition course : string := "course-v1:edX+test+course".
Definition exec_ed_course : string := "edX+ExecEd".
Definition offline_course : string := "course-v1:edX+offline+course".

(** A catalog listing three courses, at the prices of the test
    fixtures. *)
Definition catalog (customer : Z) (content_key : string) : Result ListedPrice :=
  if String.eqb content_key course then Ok (PriceStr "149.00")
  else if String.eqb content_key exec_ed_course then Ok (PriceStr "599.49")
  else if String.eqb content_key offline_course then Ok (PriceStr "149.00")
  else Raise (HTTPError 404 "Not Found").

(** An enrollment service that logs the calls it receives. Its first
    call for the offline course fails; every other call succeeds. *)
Definition attempted (content_key : string) (log : list (Z * string)) : bool :=
  existsb (fun call => String.eqb (snd call) content_key) log.

Definition enrollments (learner : Z) (content_key : string) (t : Ledger.Transaction)
    (log : list (Z * string)) : Result (option string) * list (Z * string) :=
  if String.eqb content_key offline_course && negb (attempted content_key log)
  then (Raise (OtherException "ConnectionError"), log ++ [(learner, content_key)])
  else (Ok (Some "fulfillment-0001"), log ++ [(learner, content_key)]).

Definition learner_tag (learner : Z) : string :=
  if Z.eqb learner 1 then "alice" else if Z.eqb learner 2 then "bob" else "someone".

Definition key_for (l quantity learner : Z) (content_key policy : string) : string :=
  String.append (learner_tag learner)
    (String.append "/" (String.append content_key (String.append "/" policy))).

Definition services : Collaborators := {|
  Lms := list (Z * string);
  get_course_price := catalog;
  enroll := enrollments;
  create_idempotency_key_for_transaction := key_for
|}.

(** A subsidy whose validity window closed long before the clock. *)
Definition subsidy : Subsidy := {|
  uuid := 7; title := Some "Learner credit"; starting_balance := 20000;
  ledger := 1; unit := "usd_cents"; reference_id := None;
  reference_type := OPPORTUNITY_PRODUCT_ID; enterprise_customer_uuid := 99;
  internal_only := false;
  active_datetime := Some 1000; expiration_datetime := Some 2000
|}.

Definition deposit : Ledger.Transaction := {|
  Ledger.uuid := 1; Ledger.ledger := 1; Ledger.idempotency_key := "initial-deposit";
  Ledger.quantity := 20000; Ledger.state := Ledger.COMMITTED;
  Ledger.lms_user_id := None; Ledger.content_key := None;
  Ledger.subsidy_access_policy_uuid := None;
  Ledger.reference_id := None; Ledger.reference_type := None
|}.

Definition world : @World services :=
  {| table := [deposit]; lms := ([] : @Lms services); clock := 5000 |}.

Definition pending : Ledger.Transaction := {|
  Ledger.uuid := 2; Ledger.ledger := 1; Ledger.idempotency_key := "alice/pending";
  Ledger.quantity := -14900; Ledger.state := Ledger.PENDING;
  Ledger.lms_user_id := Some 1; Ledger.content_key := Some course;
  Ledger.subsidy_access_policy_uuid := Some "policy-a";
  Ledger.reference_id := None; Ledger.reference_type := None
|}.

Definition committed : Ledger.Transaction := {|
  Ledger.uuid := 3; Ledger.ledger := 1; Ledger.idempotency_key := "alice/exec-ed";
  Ledger.quantity := -5100; Ledger.state := Ledger.COMMITTED;
  Ledger.lms_user_id := Some 1; Ledger.content_key := Some exec_ed_course;
  Ledger.subsidy_access_policy_uuid := Some "policy-a";
  Ledger.reference_id := Some "fulfillment-0000";
  Ledger.reference_type := Some OCM_ENROLLMENT_REFERENCE_TYPE
|}.

(** The ledger after alice redeemed the executive-education course and
    left a pending row for the other one: 14900 cents remain. *)
Definition busy_world : @World services :=
  {| table := [deposit; pending; committed]; lms := ([] : @Lms services); clock := 5000 |}.

(** A catalog client for the view: one priced course, one course without
    a price, one the oracle does not know, one the oracle fails on. *)
Definition priced_metadata : list (string * Json) :=
  [("uuid", JStr "00f8945b"); ("key", JStr "edX+DemoX");
   ("product_source", JNull);
   ("entitlements", JList [JDict [("mode", JStr "verified"); ("price", JStr "794.00")]])].

Definition unpriced_metadata : list (string * Json) :=
  [("uuid", JStr "11a0345c"); ("key", JStr "edX+Free");
   ("product_source", JDict [("name", JStr "2u")]);
   ("entitlements", JList [])].

Fixpoint entitlement_price (entitlements : list Json) (mode : string) : Json :=
  match entitlements with
  | JDict e :: rest =>
      match ContentMetadataViewSet.dict_get e "mode" with
      | JStr m => if String.eqb m mode then ContentMetadataViewSet.dict_get e "price"
                  else entitlement_price rest mode
      | _ => entitlement_price rest mode
      end
  | _ :: rest => entitlement_price rest mode
  | [] => JNull
  end.

Definition catalog_client : ContentMetadataViewSet.EnterpriseCatalogApiClient := {|
  ContentMetadataViewSet.get_content_metadata_for_customer := fun customer content =>
    if String.eqb content "edX+DemoX" then Ok priced_metadata
    else if String.eqb content "edX+Free" then Ok unpriced_metadata
    else if String.eqb content "edX+Down" then Raise (HTTPError 503 "Service Unavailable")
    else Raise (HTTPError 404 "Not Found");
  ContentMetadataViewSet.price_for_content := fun content_data mode =>
    match ContentMetadataViewSet.dict_get content_data "entitlements" with
    | JList entitlements => entitlement_price entitlements mode
    | _ => JNull
    end
|}.

End Demo.

(* ===================================================================== *)
(** ** Vocabulary of the specification *)
(* ===================================================================== *)

(** A redemption of (subsidy, learner, content): a committed row of the
    subsidy's ledger for that learner and that content. *)
Definition is_redemption (self : Subsidy) (learner_id : Z) (content_key : string)
    (t : Ledger.Transaction) : bool :=
  Ledger.in_ledger (ledger self) t
  && (Ledger.has_learner learner_id t && Ledger.has_content content_key t
      && Ledger.has_state Ledger.COMMITTED t).

(** The idempotency key of a redemption names that redemption: whatever
    the ledger already stores under the key [redeem] is about to use
    belongs to the same learner and content. *)
Definition key_names_redemption `{Collaborators} (self : Subsidy) (learner_id : Z)
    (content_key : string) (subsidy_access_policy_uuid : string)
    (idempotency_key : option string) (w : World) : Prop :=
  forall (p : Z) (r : Ledger.Transaction),
    price_for_content self content_key = Ok p ->
    In r (table w) ->
    Ledger.has_key (ledger self)
      (redemption_key self (-1 * p) learner_id content_key
         subsidy_access_policy_uuid idempotency_key) r = true ->
    Ledger.lms_user_id r = Some learner_id /\ Ledger.content_key r = Some content_key.

(** "Supplied" for the optional arguments of [commit_transaction], as the
    method tests it. *)
Definition supplied (v : option string) : Prop := truthy_str v = true.

(** The metadata lacks a price for its mode: the mode resolves and the
    client finds no (truthy) price under it, which is what the view tests. *)
Definition lacks_price `{ContentMetadataViewSet.EnterpriseCatalogApiClient}
    (content_data : list (string * Json)) : Prop :=
  exists source mode,
    ContentMetadataViewSet.resolve_source content_data = Ok (source, mode) /\
    ContentMetadataViewSet.truthy
      (ContentMetadataViewSet.price_for_content content_data mode) = false.

(** At most one redemption per (ledger, learner, content): two committed
    rows of one ledger for one learner and one content are one row. *)
Definition one_redemption_per_pair (tbl : Ledger.Table) : Prop :=
  forall (self : Subsidy) (learner_id : Z) (content_key : string)
         (a b : Ledger.Transaction),
    In a tbl -> In b tbl ->
    is_redemption self learner_id content_key a = true ->
    is_redemption self learner_id content_key b = true ->
    a = b.

(** A price listed in dollars with exactly two decimals, as ["%d.%02d"]
    prints an amount of cents. *)
Definition decimal_digit (d : Z) : ascii := ascii_of_nat (48 + Z.to_nat d).

Definition two_decimals (cents : Z) : string :=
  String.append
    (NilZero.string_of_uint (N.to_uint (Z.to_N (cents / 100))))
    (String "." (String (decimal_digit ((cents / 10) mod 10))
                   (String (decimal_digit (cents mod 10)) EmptyString))).

(** Does [price_in_cents] give back the amount of cents, or one less? *)
Definition within_one_cent (cents : Z) : bool :=
  match price_in_cents (PriceStr (two_decimals cents)) with
  | Ok v => Z.eqb v cents || Z.eqb v (cents - 1)
  | Raise _ => false
  end.

(** [within_one_cent] for the [n] amounts from [cents] on. *)
Fixpoint within_one_cent_from (n : nat) (cents : Z) : bool :=
  match n with
  | O => true
  | S k => within_one_cent cents && within_one_cent_from k (cents + 1)
  end.

(** The object [commit_transaction] leaves behind when [_create_redemption]
    commits the row [r] with the reference id [rid] of the enrollment. *)
Definition committed_with (r : Ledger.Transaction) (rid : option string)
    : Ledger.Transaction :=
  Ledger.set_state
    (if truthy_str rid
     then Ledger.set_reference r rid (Some OCM_ENROLLMENT_REFERENCE_TYPE)
     else r)
    Ledger.COMMITTED.

(** The five ways through [redeem], each with the result and the world it
    ends in: the redemption found; the price that cannot be resolved; the
    balance that does not cover the price; the enrollment that raises after
    the upsert; and the enrollment that succeeds, followed by the commit. *)
Inductive redeem_outcome `{Collaborators} (self : Subsidy) (learner_id : Z)
    (content_key : string) (subsidy_access_policy_uuid : string)
    (idempotency_key : option string) (w : World)
    : Result (option Ledger.Transaction * bool) * World -> Prop :=
| outcome_found (existing : Ledger.Transaction) :
    Ledger.first (filter (is_redemption self learner_id content_key) (table w))
    = Some existing ->
    redeem_outcome self learner_id content_key subsidy_access_policy_uuid
      idempotency_key w (Ok (Some existing, false), w)
| outcome_price_error (e : Exception) :
    Ledger.first (filter (is_redemption self learner_id content_key) (table w)) = None ->
    price_for_content self content_key = Raise e ->
    redeem_outcome self learner_id content_key subsidy_access_policy_uuid
      idempotency_key w (Raise e, w)
| outcome_not_redeemable (p : Z) :
    Ledger.first (filter (is_redemption self learner_id content_key) (table w)) = None ->
    price_for_content self content_key = Ok p ->
    Ledger.balance (ledger self) (table w) < p ->
    redeem_outcome self learner_id content_key subsidy_access_policy_uuid
      idempotency_key w (Ok (None, false), w)
| outcome_enroll_error (p : Z) (r : Ledger.Transaction) (tbl' : Ledger.Table)
    (e : Exception) (s' : Lms) :
    Ledger.first (filter (is_redemption self learner_id content_key) (table w)) = None ->
    price_for_content self content_key = Ok p ->
    p <= Ledger.balance (ledger self) (table w) ->
    Ledger.create_transaction (ledger self) (-1 * p)
      (redemption_key self (-1 * p) learner_id content_key
         subsidy_access_policy_uuid idempotency_key)
      (Some learner_id) (Some content_key) (Some subsidy_access_policy_uuid) (table w)
    = (r, tbl') ->
    enroll learner_id content_key r (lms w) = (Raise e, s') ->
    redeem_outcome self learner_id content_key subsidy_access_policy_uuid
      idempotency_key w (Raise e, {| table := tbl'; lms := s'; clock := clock w |})
| outcome_created (p : Z) (r : Ledger.Transaction) (tbl' : Ledger.Table)
    (rid : option string) (s' : Lms) :
    Ledger.first (filter (is_redemption self learner_id content_key) (table w)) = None ->
    price_for_content self content_key = Ok p ->
    p <= Ledger.balance (ledger self) (table w) ->
    Ledger.create_transaction (ledger self) (-1 * p)
      (redemption_key self (-1 * p) learner_id content_key
         subsidy_access_policy_uuid idempotency_key)
      (Some learner_id) (Some content_key) (Some subsidy_access_policy_uuid) (table w)
    = (r, tbl') ->
    enroll learner_id content_key r (lms w) = (Ok rid, s') ->
    redeem_outcome self learner_id content_key subsidy_access_policy_uuid
      idempotency_key w
      (Ok (Some (committed_with r rid), true),
       {| table := Ledger.save (committed_with r rid) tbl'; lms := s'; clock := clock w |}).

(* ===================================================================== *)
(** ** The role assignment model *)
(* ===================================================================== *)

Module Rbac.

(** [str(uuid.UUID)]: the 128-bit value as 32 lowercase hexadecimal digits,
    hyphenated 8-4-4-4-12. *)
Definition hex_digit (d : Z) : ascii :=
  if Z.ltb d 10 then ascii_of_nat (48 + Z.to_nat d)
  else ascii_of_nat (87 + Z.to_nat d).

(** ['%0nx' % v], for a value below [16^n]. *)
Fixpoint hex_fixed (n : nat) (v : Z) : string :=
  match n with
  | O => EmptyString
  | S k => String (hex_digit ((v / 16 ^ Z.of_nat k) mod 16)) (hex_fixed k v)
  end.

Definition hyphenate (hex : string) : string :=
  String.append (substring 0 8 hex)
    (String "-" (String.append (substring 8 4 hex)
      (String "-" (String.append (substring 12 4 hex)
        (String "-" (String.append (substring 16 4 hex)
          (String "-" (substring 20 12 hex)))))))).

Definition uuid_str (u : Z) : string := hyphenate (hex_fixed 32 u).

(** Modelled from the spec: [edx_rbac.utils.ALL_ACCESS_CONTEXT], which the
    docstring of [get_context] gives as [*]. *)
Definition ALL_ACCESS_CONTEXT : string := "*".

Record EnterpriseSubsidyFeatureRole : Type := {
  name : string
}.

(** A role assignment; [enterprise_id] is a nullable UUID column. *)
Record EnterpriseSubsidyRoleAssignment : Type := {
  user : Z;
  role : EnterpriseSubsidyFeatureRole;
  enterprise_id : option Z
}.

(** [EnterpriseSubsidyRoleAssignment.get_context]; a UUID object is
    truthy, so [if self.enterprise_id] tests for null. *)
Definition get_context (self : EnterpriseSubsidyRoleAssignment) : string :=
  match enterprise_id self with
  | Some u => uuid_str u
  | None => ALL_ACCESS_CONTEXT
  end.

(** Reading an hyphenated UUID back: the 32 digits without the hyphens. *)
Definition unhyphenate (text : string) : string :=
  String.append (substring 0 8 text)
    (String.append (substring 9 4 text)
      (String.append (substring 14 4 text)
        (String.append (substring 19 4 text) (substring 24 12 text)))).

End Rbac.

(** The value of a hexadecimal digit, [0] for any other character. *)
Definition hex_value (c : ascii) : Z :=
  let n := Z.of_nat (nat_of_ascii c) in
  if Z.leb 48 n && Z.leb n 57 then n - 48
  else if Z.leb 97 n && Z.leb n 102 then n - 87
  else 0.

(** The UUID column holds 128-bit values. *)
Definition valid_assignment (a : Rbac.EnterpriseSubsidyRoleAssignment) : Prop :=
  forall u, Rbac.enterprise_id a = Some u -> 0 <= u < 2 ^ 128.

(* ===================================================================== *)
(** ** Facts about the transaction table *)
(* ===================================================================== *)

Section TableFacts.

Import Ledger.

Lemma first_In (rows : list Transaction) (t : Transaction) :
  first rows = Some t -> In t rows.
Proof.
  revert t. induction rows as [|r rest IH]; intros t Hf; simpl in Hf.
  - discriminate.
  - destruct (first rest) as [m|] eqn:Hrest.
    + destruct (Z.leb (uuid r) (uuid m)); injection Hf as <-.
      * now left.
      * right. now apply IH.
    + injection Hf as <-. now left.
Qed.

Lemma first_None_nil (rows : list Transaction) :
  first rows = None <-> rows = [].
Proof.
  split.
  - destruct rows as [|r rest]; [reflexivity|]. simpl.
    destruct (first rest); [destruct (Z.leb _ _)|]; discriminate.
  - intros ->. reflexivity.
Qed.

(** A query whose rows are all one and the same transaction returns it. *)
Lemma first_constant (rows : list Transaction) (t : Transaction) :
  rows <> [] -> (forall y, In y rows -> y = t) -> first rows = Some t.
Proof.
  induction rows as [|r rest IH]; intros Hne Hall; [congruence|].
  simpl. assert (r = t) as -> by (apply Hall; now left).
  destruct rest as [|r' rest'].
  - reflexivity.
  - rewrite IH.
    + now destruct (Z.leb (uuid t) (uuid t)).
    + discriminate.
    + intros y Hy. apply Hall. now right.
Qed.

Lemma filter_filter {A : Type} (f g : A -> bool) (l : list A) :
  filter f (filter g l) = filter (fun x => g x && f x) l.
Proof.
  induction l as [|x l IH]; [reflexivity|]. simpl.
  destruct (g x); simpl; [destruct (f x)|]; now rewrite IH.
Qed.

(** Filtering a table in which only [t] passes the test. *)
Lemma first_filter_only (q : Transaction -> bool) (tbl : Table) (t : Transaction) :
  In t tbl -> q t = true ->
  (forall y, In y tbl -> y = t \/ q y = false) ->
  first (filter q tbl) = Some t.
Proof.
  intros Hin Hq Hall. apply first_constant.
  - intros Hnil. assert (In t (filter q tbl)) as Hin' by (apply filter_In; auto).
    rewrite Hnil in Hin'. contradiction.
  - intros y Hy. apply filter_In in Hy as [Hy Hqy].
    destruct (Hall y Hy) as [->|Hf]; [reflexivity|congruence].
Qed.

(** Saving over a stored row: the object is in the table afterwards, and
    every other row is one the table had before. *)
Lemma save_stored (t r : Transaction) (tbl : Table) :
  In r tbl -> uuid t = uuid r ->
  In t (save t tbl) /\ forall y, In y (save t tbl) -> y = t \/ In y tbl.
Proof.
  intros Hin Hid. unfold save.
  assert (existsb (fun x => Z.eqb (uuid x) (uuid t)) tbl = true) as ->.
  { apply existsb_exists. exists r. split; [assumption|]. apply Z.eqb_eq. congruence. }
  split.
  - apply in_map_iff. exists r. split; [|assumption].
    rewrite Hid, Z.eqb_refl. reflexivity.
  - intros y Hy. apply in_map_iff in Hy as [x [Hx Hxin]].
    destruct (Z.eqb (uuid x) (uuid t)); subst; auto.
Qed.

(** The upsert: the returned row is stored, under the ledger and key
    asked for, and the table keeps all it had. *)
Lemma create_transaction_stored (l qty : Z) (key : string)
    (learner : option Z) (content policy : option string) (tbl tbl' : Table)
    (r : Transaction) :
  create_transaction l qty key learner content policy tbl = (r, tbl') ->
  In r tbl' /\ ledger r = l /\
  (forall y, In y tbl' -> y = r \/ In y tbl) /\
  (forall y, In y tbl -> In y tbl') /\
  (In r tbl /\ has_key l key r = true /\ tbl' = tbl \/
   ~ In r tbl /\ tbl' = tbl ++ [r] /\ state r = CREATED /\ quantity r = qty /\
   lms_user_id r = learner /\ content_key r = content /\
   find (has_key l key) tbl = None).
Proof.
  unfold create_transaction. intros Hc.
  destruct (find (has_key l key) tbl) as [e|] eqn:Hfind.
  - injection Hc as <- <-. apply find_some in Hfind as [Hin Hk].
    pose proof Hk as Hk'. unfold has_key, in_ledger in Hk'.
    apply andb_true_iff in Hk' as [Hl _]. apply Z.eqb_eq in Hl.
    repeat split; auto.
  - injection Hc as <- <-. repeat split.
    + apply in_or_app. right. now left.
    + intros y Hy. apply in_app_or in Hy as [Hy|[Hy|[]]]; auto.
    + intros y Hy. apply in_or_app. now left.
    + right. repeat split; auto.
      intros Hin. 
      assert (forall (x : Transaction), In x tbl -> uuid x < fresh_uuid tbl) as Hlt.
      { clear. unfold fresh_uuid. induction tbl as [|a tbl IH]; intros x Hx; [contradiction|].
        cbn [map fold_right]. destruct Hx as [->|Hx]; [lia|]. specialize (IH x Hx). lia. }
      specialize (Hlt _ Hin). simpl in Hlt. lia.
Qed.

End TableFacts.

(* ===================================================================== *)
(** ** Facts about the engine *)
(* ===================================================================== *)

Section EngineFacts.

Context `{Collaborators}.

Lemma is_redemption_true (self : Subsidy) (learner : Z) (ck : string)
    (t : Ledger.Transaction) :
  is_redemption self learner ck t = true <->
  Ledger.ledger t = ledger self /\ Ledger.lms_user_id t = Some learner /\
  Ledger.content_key t = Some ck /\ Ledger.state t = Ledger.COMMITTED.
Proof.
  unfold is_redemption, Ledger.in_ledger, Ledger.has_learner, Ledger.has_content,
    Ledger.has_state.
  rewrite !andb_true_iff, Z.eqb_eq.
  destruct (Ledger.lms_user_id t) as [u|], (Ledger.content_key t) as [k|],
    (Ledger.state t); simpl;
    rewrite ?Z.eqb_eq, ?String.eqb_eq;
    intuition (try discriminate; try congruence).
Qed.

(** The three filters and [first] of [get_redemption], as one query. *)
Lemma get_redemption_query (self : Subsidy) (learner : Z) (ck : string) (w : World) :
  get_redemption self learner ck w =
  (Ok (Ledger.first (filter (is_redemption self learner ck) (table w))), w).
Proof.
  unfold get_redemption, transactions_for_learner_and_content, all_transactions.
  now rewrite !filter_filter.
Qed.

Lemma get_redemption_Some (self : Subsidy) (learner : Z) (ck : string) (w w' : World)
    (t : Ledger.Transaction) :
  get_redemption self learner ck w = (Ok (Some t), w') ->
  In t (table w) /\ is_redemption self learner ck t = true.
Proof.
  rewrite get_redemption_query. intros Hg. injection Hg as Hf _.
  apply first_In in Hf. now apply filter_In in Hf.
Qed.

Lemma get_redemption_None (self : Subsidy) (learner : Z) (ck : string) (w w' : World) :
  get_redemption self learner ck w = (Ok None, w') ->
  forall y, In y (table w) -> is_redemption self learner ck y = false.
Proof.
  rewrite get_redemption_query. intros Hg y Hy. injection Hg as Hf _.
  apply first_None_nil in Hf.
  destruct (is_redemption self learner ck y) eqn:Hq; [|reflexivity].
  assert (In y (filter (is_redemption self learner ck) (table w))) as Hin
    by (apply filter_In; auto).
  rewrite Hf in Hin. contradiction.
Qed.

Lemma is_redeemable_run (self : Subsidy) (ck : string) (w : World) (p : Z) :
  price_for_content self ck = Ok p ->
  is_redeemable self ck w =
  (Ok (Z.geb (Ledger.balance (ledger self) (table w)) p, p), w).
Proof.
  intros Hp. unfold is_redeemable, bind, lift, current_balance, ret.
  now rewrite Hp.
Qed.

(** What [_create_redemption] does once the price is known and the
    upsert has answered: everything hinges on the enrollment call. *)
Lemma create_redemption_run (self : Subsidy) (learner : Z) (ck policy : string)
    (key : option string) (w : World) (p : Z) (r : Ledger.Transaction)
    (tbl' : Ledger.Table) :
  price_for_content self ck = Ok p ->
  Ledger.create_transaction (ledger self) (-1 * p)
    (redemption_key self (-1 * p) learner ck policy key)
    (Some learner) (Some ck) (Some policy) (table w) = (r, tbl') ->
  _create_redemption self learner ck policy key w =
  match enroll learner ck r (lms w) with
  | (Ok rid, s') =>
      let t := Ledger.set_state
                 (if truthy_str rid
                  then Ledger.set_reference r rid (Some OCM_ENROLLMENT_REFERENCE_TYPE)
                  else r)
                 Ledger.COMMITTED in
      (Ok t, {| table := Ledger.save t tbl'; lms := s'; clock := clock w |})
  | (Raise e, s') => (Raise e, {| table := tbl'; lms := s'; clock := clock w |})
  end.
Proof.
  intros Hp Hc.
  unfold _create_redemption, bind, lift, create_transaction, try_except,
    enterprise_client_enroll, commit_transaction, rollback_transaction, save,
    raise, ret, bind, with_table, with_lms.
  rewrite Hp. cbv beta iota. rewrite Hc. cbn [table lms clock].
  destruct (enroll learner ck r (lms w)) as [[rid|e] s']; [|reflexivity].
  destruct (truthy_str rid); reflexivity.
Qed.

(** The control flow of [redeem], one case per [return]. *)
Lemma redeem_run (self : Subsidy) (learner : Z) (ck policy : string)
    (key : option string) (w : World) :
  redeem self learner ck policy key w =
  match Ledger.first (filter (is_redemption self learner ck) (table w)) with
  | Some existing => (Ok (Some existing, false), w)
  | None =>
      match price_for_content self ck with
      | Raise e => (Raise e, w)
      | Ok p =>
          if Z.geb (Ledger.balance (ledger self) (table w)) p then
            match _create_redemption self learner ck policy key w with
            | (Ok t, w') => (Ok (Some t, true), w')
            | (Raise e, w') => (Raise e, w')
            end
          else (Ok (None, false), w)
      end
  end.
Proof.
  unfold redeem, bind. rewrite get_redemption_query.
  destruct (Ledger.first _); [reflexivity|].
  unfold is_redeemable, bind, lift, current_balance, ret.
  destruct (price_for_content self ck) as [p|e]; [|reflexivity].
  destruct (Z.geb _ p); cbn [negb]; [|reflexivity].
  now destruct (_create_redemption self learner ck policy key w) as [[t|e] w'].
Qed.

Lemma redeem_existing (self : Subsidy) (learner : Z) (ck policy : string)
    (key : option string) (w : World) (t : Ledger.Transaction) :
  get_redemption self learner ck w = (Ok (Some t), w) ->
  redeem self learner ck policy key w = (Ok (Some t, false), w).
Proof.
  rewrite get_redemption_query, redeem_run. intros Hg.
  injection Hg as ->. reflexivity.
Qed.

(** A redemption that [_create_redemption] has just committed is what
    [get_redemption] finds afterwards, provided there was none before
    and the idempotency key names this redemption. *)
Lemma committed_is_found (self : Subsidy) (learner : Z) (ck policy : string)
    (key : option string) (w : World) (p : Z) (r : Ledger.Transaction)
    (tbl' : Ledger.Table) (rid : option string) (s' : Lms) :
  key_names_redemption self learner ck policy key w ->
  (forall y, In y (table w) -> is_redemption self learner ck y = false) ->
  price_for_content self ck = Ok p ->
  Ledger.create_transaction (ledger self) (-1 * p)
    (redemption_key self (-1 * p) learner ck policy key)
    (Some learner) (Some ck) (Some policy) (table w) = (r, tbl') ->
  let t := Ledger.set_state
             (if truthy_str rid
              then Ledger.set_reference r rid (Some OCM_ENROLLMENT_REFERENCE_TYPE)
              else r)
             Ledger.COMMITTED in
  let w1 := {| table := Ledger.save t tbl'; lms := s'; clock := clock w |} in
  get_redemption self learner ck w1 = (Ok (Some t), w1).
Proof.
  intros Hkey Hnone Hp Hc t w1.
  destruct (create_transaction_stored _ _ _ _ _ _ _ _ _ Hc)
    as (Hin & Hl & Hrows & _ & Hcase).
  assert (Ledger.uuid t = Ledger.uuid r) as Hid
    by (subst t; now destruct (truthy_str rid)).
  destruct (save_stored t r tbl' Hin Hid) as [Hsaved Hothers].
  rewrite get_redemption_query. subst w1. cbn [table].
  assert (Ledger.lms_user_id r = Some learner /\ Ledger.content_key r = Some ck)
    as [Hu Hk].
  { destruct Hcase as [(Hold & Hhas & _)|(_ & _ & _ & _ & Hu & Hk & _)].
    - exact (Hkey p r Hp Hold Hhas).
    - now split. }
  assert (is_redemption self learner ck r = false) as Hr.
  { destruct Hcase as [(Hold & _)|(_ & _ & Hst & _)].
    - now apply Hnone.
    - destruct (is_redemption self learner ck r) eqn:Hq; [|reflexivity].
      apply is_redemption_true in Hq as (_ & _ & _ & Hq). congruence. }
  f_equal. f_equal. apply first_filter_only.
  - exact Hsaved.
  - apply is_redemption_true. subst t.
    now destruct (truthy_str rid).
  - intros y Hy. destruct (Hothers y Hy) as [->|Hy']; [now left|right].
    destruct (Hrows y Hy') as [->|Hy'']; [exact Hr|now apply Hnone].
Qed.

(** C5. [get_redemption] answers without touching the store; a
    transaction it returns is a stored row of the subsidy's ledger that
    is committed and carries the learner id and content key asked for;
    and when every row of the ledger for that learner and content is
    pending, failed or merely created, it returns none. *)
Theorem get_redemption_only_committed (self : Subsidy) (learner_id : Z)
    (content_key : string) (w : World) :
  exists found,
    get_redemption self learner_id content_key w = (Ok found, w) /\
    (forall t, found = Some t ->
       In t (table w) /\ Ledger.ledger t = ledger self /\
       Ledger.state t = Ledger.COMMITTED /\
       Ledger.lms_user_id t = Some learner_id /\
       Ledger.content_key t = Some content_key) /\
    ((forall t, In t (table w) -> Ledger.ledger t = ledger self ->
        Ledger.lms_user_id t = Some learner_id ->
        Ledger.content_key t = Some content_key ->
        Ledger.state t = Ledger.PENDING \/ Ledger.state t = Ledger.FAILED \/
        Ledger.state t = Ledger.CREATED) ->
     found = None).
Proof.
  rewrite get_redemption_query.
  eexists. split; [reflexivity|]. split.
  - intros t Hf. apply first_In in Hf. apply filter_In in Hf as [Hin Hq].
    apply is_redemption_true in Hq. tauto.
  - intros Hall.
    destruct (Ledger.first _) as [t|] eqn:Hf; [|reflexivity].
    apply first_In in Hf. apply filter_In in Hf as [Hin Hq].
    apply is_redemption_true in Hq as (Hl & Hu & Hk & Hst).
    destruct (Hall t Hin Hl Hu Hk) as [Hs|[Hs|Hs]]; congruence.
Qed.

(** C1. When a committed transaction exists for (subsidy, learner,
    content), [redeem] returns it with created=False and leaves the store
    as it was. Hence a second call with the same arguments: whenever
    [redeem] has returned a transaction, created or found, and the ledger
    kept the idempotency key for this learner and content, the
    transaction is committed and the repeated call returns that same
    transaction with created=False, again without touching the store. *)
Theorem redeem_idempotent (self : Subsidy) (learner_id : Z) (content_key : string)
    (subsidy_access_policy_uuid : string) (idempotency_key : option string)
    (w : World) :
  (forall t,
     get_redemption self learner_id content_key w = (Ok (Some t), w) ->
     redeem self learner_id content_key subsidy_access_policy_uuid idempotency_key w
     = (Ok (Some t, false), w)) /\
  (forall t created w1,
     key_names_redemption self learner_id content_key subsidy_access_policy_uuid
       idempotency_key w ->
     redeem self learner_id content_key subsidy_access_policy_uuid idempotency_key w
     = (Ok (Some t, created), w1) ->
     Ledger.state t = Ledger.COMMITTED /\
     redeem self learner_id content_key subsidy_access_policy_uuid idempotency_key w1
     = (Ok (Some t, false), w1)).
Proof.
  split.
  - intros t. apply redeem_existing.
  - intros t created w1 Hkey Hred.
    assert (get_redemption self learner_id content_key w1 = (Ok (Some t), w1)) as Hg.
    { rewrite redeem_run in Hred.
      destruct (Ledger.first _) as [e|] eqn:Hf.
      - injection Hred as <- _ <-. rewrite get_redemption_query. now rewrite Hf.
      - assert (forall y, In y (table w) ->
                  is_redemption self learner_id content_key y = false) as Hnone.
        { apply (get_redemption_None self learner_id content_key w w).
          rewrite get_redemption_query. now rewrite Hf. }
        destruct (price_for_content self content_key) as [p|e] eqn:Hp; [|discriminate].
        destruct (Z.geb _ p); [|discriminate].
        destruct (Ledger.create_transaction (ledger self) (-1 * p)
                    (redemption_key self (-1 * p) learner_id content_key
                       subsidy_access_policy_uuid idempotency_key)
                    (Some learner_id) (Some content_key)
                    (Some subsidy_access_policy_uuid) (table w))
          as [r tbl'] eqn:Hc.
        rewrite (create_redemption_run _ _ _ _ _ _ _ _ _ Hp Hc) in Hred.
        destruct (enroll learner_id content_key r (lms w)) as [[rid|e] s'];
          [|discriminate].
        cbv zeta in Hred. injection Hred as <- _ <-.
        exact (committed_is_found _ _ _ _ _ _ _ _ _ rid s' Hkey Hnone Hp Hc). }
    split.
    + apply get_redemption_Some in Hg as [_ Hq].
      now apply is_redemption_true in Hq.
    + now apply redeem_existing.
Qed.

(** C9. The existing-redemption check looks at learner and content only.
    Whenever the ledger holds a committed transaction for the pair,
    recorded under whatever policy, [redeem] called with any policy id
    returns with created=False the committed transaction for the pair
    that [get_redemption] finds (the stored one itself when it is the
    only one) and leaves the store as it was, so no transaction appears
    under the new policy id. *)
Theorem redeem_ignores_policy (self : Subsidy) (learner_id : Z) (content_key : string)
    (w : World) (stored : Ledger.Transaction) :
  In stored (table w) ->
  Ledger.ledger stored = ledger self ->
  Ledger.lms_user_id stored = Some learner_id ->
  Ledger.content_key stored = Some content_key ->
  Ledger.state stored = Ledger.COMMITTED ->
  forall (subsidy_access_policy_uuid : string) (idempotency_key : option string),
  exists t,
    get_redemption self learner_id content_key w = (Ok (Some t), w) /\
    redeem self learner_id content_key subsidy_access_policy_uuid idempotency_key w
    = (Ok (Some t, false), w) /\
    In t (table w) /\
    Ledger.state t = Ledger.COMMITTED /\
    Ledger.lms_user_id t = Some learner_id /\
    Ledger.content_key t = Some content_key /\
    ((forall y, In y (table w) -> is_redemption self learner_id content_key y = true ->
        y = stored) -> t = stored).
Proof.
  intros Hin Hl Hu Hk Hst policy key.
  assert (is_redemption self learner_id content_key stored = true) as Hq
    by (apply is_redemption_true; tauto).
  destruct (Ledger.first (filter (is_redemption self learner_id content_key) (table w)))
    as [t|] eqn:Hf.
  - assert (get_redemption self learner_id content_key w = (Ok (Some t), w)) as Hg
      by (rewrite get_redemption_query; now rewrite Hf).
    exists t. split; [exact Hg|]. split; [now apply redeem_existing|].
    apply first_In in Hf. apply filter_In in Hf as [Hin' Hq'].
    pose proof Hq' as Hq''. apply is_redemption_true in Hq'' as (_ & Hu' & Hk' & Hst').
    repeat split; auto.
  - apply first_None_nil in Hf.
    assert (In stored (filter (is_redemption self learner_id content_key) (table w)))
      as Habs by (apply filter_In; auto).
    rewrite Hf in Habs. contradiction.
Qed.

(** C6. With no committed redemption for (subsidy, learner, content) and
    a balance below the price, [is_redeemable] is false and [redeem]
    returns (none, False) and leaves the store as it was: no transaction
    is created. *)
Theorem redeem_not_redeemable (self : Subsidy) (learner_id : Z) (content_key : string)
    (subsidy_access_policy_uuid : string) (idempotency_key : option string)
    (w : World) (price balance : Z) :
  get_redemption self learner_id content_key w = (Ok None, w) ->
  price_for_content self content_key = Ok price ->
  current_balance self w = (Ok balance, w) ->
  balance < price ->
  is_redeemable self content_key w = (Ok (false, price), w) /\
  redeem self learner_id content_key subsidy_access_policy_uuid idempotency_key w
  = (Ok (None, false), w).
Proof.
  intros Hg Hp Hb Hlt.
  unfold current_balance in Hb. injection Hb as Hb.
  assert (Z.geb (Ledger.balance (ledger self) (table w)) price = false) as Hge.
  { rewrite Z.geb_leb. apply Z.leb_gt. lia. }
  split.
  - rewrite (is_redeemable_run _ _ _ _ Hp). now rewrite Hge.
  - rewrite redeem_run. rewrite get_redemption_query in Hg. injection Hg as ->.
    now rewrite Hp, Hge.
Qed.

(** C4. [is_redeemable] returns the pair (redeemable, price): the price
    is the resolved content price whatever the boolean, the boolean is
    True exactly when the current balance is at least the price, so also
    when they are equal, and the store is left as it was. *)
Theorem is_redeemable_boundary (self : Subsidy) (content_key : string) (w : World)
    (price : Z) :
  price_for_content self content_key = Ok price ->
  exists balance redeemable,
    current_balance self w = (Ok balance, w) /\
    is_redeemable self content_key w = (Ok (redeemable, price), w) /\
    (redeemable = true <-> balance >= price) /\
    (balance = price -> redeemable = true).
Proof.
  intros Hp.
  exists (Ledger.balance (ledger self) (table w)),
         (Z.geb (Ledger.balance (ledger self) (table w)) price).
  split; [reflexivity|]. split; [now apply is_redeemable_run|].
  rewrite Z.geb_leb, Z.leb_le. split; [lia|]. intros ->. lia.
Qed.

(** C10. Neither [is_redeemable] nor [redeem] looks at the validity
    window: for every subsidy, whatever its active and expiration
    datetimes (null or not) and whatever the clock, a balance that covers
    the price makes [is_redeemable] True, and [redeem], when there is no
    redemption yet and the enrollment goes through, creates and commits
    a transaction of the subsidy's ledger. *)
Theorem redeem_outside_validity_window (self : Subsidy) (learner_id : Z)
    (content_key : string) (subsidy_access_policy_uuid : string)
    (idempotency_key : option string) (w : World) (price balance : Z) :
  get_redemption self learner_id content_key w = (Ok None, w) ->
  price_for_content self content_key = Ok price ->
  current_balance self w = (Ok balance, w) ->
  balance >= price ->
  (forall r, exists rid s', enroll learner_id content_key r (lms w) = (Ok rid, s')) ->
  is_redeemable self content_key w = (Ok (true, price), w) /\
  exists t w1,
    redeem self learner_id content_key subsidy_access_policy_uuid idempotency_key w
    = (Ok (Some t, true), w1) /\
    Ledger.state t = Ledger.COMMITTED /\
    Ledger.ledger t = ledger self /\
    In t (table w1).
Proof.
  intros Hg Hp Hb Hge Henroll.
  unfold current_balance in Hb. injection Hb as Hb.
  assert (Z.geb (Ledger.balance (ledger self) (table w)) price = true) as Hgeb.
  { rewrite Z.geb_leb. apply Z.leb_le. lia. }
  split.
  - rewrite (is_redeemable_run _ _ _ _ Hp). now rewrite Hgeb.
  - rewrite redeem_run. rewrite get_redemption_query in Hg. injection Hg as ->.
    rewrite Hp, Hgeb.
    destruct (Ledger.create_transaction (ledger self) (-1 * price)
                (redemption_key self (-1 * price) learner_id content_key
                   subsidy_access_policy_uuid idempotency_key)
                (Some learner_id) (Some content_key)
                (Some subsidy_access_policy_uuid) (table w))
      as [r tbl'] eqn:Hc.
    rewrite (create_redemption_run _ _ _ _ _ _ _ _ _ Hp Hc).
    destruct (Henroll r) as (rid & s' & ->). cbv zeta.
    destruct (create_transaction_stored _ _ _ _ _ _ _ _ _ Hc) as (Hin & Hl & _).
    eexists. eexists. split; [reflexivity|].
    split; [reflexivity|]. split.
    + now destruct (truthy_str rid).
    + cbn [table]. eapply save_stored; [exact Hin|].
      now destruct (truthy_str rid).
Qed.

(** C3, as the code has it. [commit_transaction] fails with a ValueError
    exactly when a reference_id is supplied without a reference_type, and
    then neither the store nor the transaction changes; in every other
    case it commits and saves the transaction: with both references set
    when both are supplied, and with the references untouched when no
    reference_id is supplied, whether or not a reference_type is. *)
Theorem commit_transaction_contract (self : Subsidy)
    (ledger_transaction : Ledger.Transaction)
    (reference_id reference_type : option string) (w : World) :
  (supplied reference_id -> ~ supplied reference_type ->
   commit_transaction self ledger_transaction reference_id reference_type w
   = (Raise (ValueError "A reference_id was provided without a reference_type."), w)) /\
  (supplied reference_id -> supplied reference_type ->
   let t := Ledger.set_state
              (Ledger.set_reference ledger_transaction reference_id reference_type)
              Ledger.COMMITTED in
   commit_transaction self ledger_transaction reference_id reference_type w
   = (Ok t, with_table w (Ledger.save t (table w)))) /\
  (~ supplied reference_id ->
   let t := Ledger.set_state ledger_transaction Ledger.COMMITTED in
   commit_transaction self ledger_transaction reference_id reference_type w
   = (Ok t, with_table w (Ledger.save t (table w)))).
Proof.
  unfold supplied, commit_transaction, bind, raise, ret, save.
  destruct (truthy_str reference_id), (truthy_str reference_type);
    cbn [negb]; repeat split; intros; try reflexivity; congruence.
Qed.

(** C7. [price_for_content] is [int(float(price) * 100)] of the listed
    price: the product with 100 in binary64, then truncated. A listed
    price of "149.00" gives 14900 and one of "599.49" gives 59949. *)
Theorem price_for_content_cents (self : Subsidy) (content_key : string) :
  (forall listed f,
     get_course_price (enterprise_customer_uuid self) content_key = Ok listed ->
     float_of_price listed = Ok f ->
     price_for_content self content_key
     = Float64.to_int (Float64.mul f (Float64.of_Z 100))) /\
  (get_course_price (enterprise_customer_uuid self) content_key = Ok (PriceStr "149.00") ->
   price_for_content self content_key = Ok 14900) /\
  (get_course_price (enterprise_customer_uuid self) content_key = Ok (PriceStr "599.49") ->
   price_for_content self content_key = Ok 59949).
Proof.
  unfold price_for_content. repeat split.
  - intros listed f -> Hf. unfold price_in_cents. now rewrite Hf.
  - intros ->. vm_compute. reflexivity.
  - intros ->. vm_compute. reflexivity.
Qed.

(** When the enrollment call raises, [_create_redemption] calls
    [rollback_transaction], which does nothing, and re-raises: the row
    the upsert returned stays in the table as it was. *)
Lemma failed_enrollment_keeps_row (self : Subsidy) (learner : Z) (ck policy : string)
    (key : option string) (w : World) (p : Z) (r : Ledger.Transaction)
    (tbl' : Ledger.Table) (e : Exception) (s' : Lms) :
  price_for_content self ck = Ok p ->
  Ledger.create_transaction (ledger self) (-1 * p)
    (redemption_key self (-1 * p) learner ck policy key)
    (Some learner) (Some ck) (Some policy) (table w) = (r, tbl') ->
  enroll learner ck r (lms w) = (Raise e, s') ->
  exists w1,
    _create_redemption self learner ck policy key w = (Raise e, w1) /\
    table w1 = tbl' /\ In r (table w1).
Proof.
  intros Hp Hc He. rewrite (create_redemption_run _ _ _ _ _ _ _ _ _ Hp Hc), He.
  eexists. split; [reflexivity|]. split; [reflexivity|].
  cbn [table]. now destruct (create_transaction_stored _ _ _ _ _ _ _ _ _ Hc).
Qed.

End EngineFacts.

(* ===================================================================== *)
(** ** Facts about the content-metadata read path *)
(* ===================================================================== *)

Section ViewFacts.

Import ContentMetadataViewSet.

Context `{EnterpriseCatalogApiClient}.

Lemma resolve_source_raises (content_data : list (string * Json)) (e : Exception) :
  resolve_source content_data = Raise e ->
  e = AttributeError "object has no attribute 'get'".
Proof.
  unfold resolve_source.
  destruct (truthy (dict_get content_data "product_source")); [|discriminate].
  destruct (dict_get content_data "product_source"); intros Hr;
    try discriminate; now injection Hr.
Qed.

(** C8. The read path answers 404 exactly when the pricing oracle
    answers 404 for the content and customer, or the metadata it returns
    lacks a price for the resolved mode; and an oracle error with any
    other status is answered with that status and the error's detail. *)
Theorem content_metadata_not_found (content_identifier : string)
    (enterprise_customer_uuid : string * list string) :
  ((exists body, get content_identifier enterprise_customer_uuid
                 = Ok {| data := body; status := 404 |}) <->
   (exists detail,
      get_content_metadata_for_customer (fst enterprise_customer_uuid) content_identifier
      = Raise (HTTPError 404 detail)) \/
   (exists content_data,
      get_content_metadata_for_customer (fst enterprise_customer_uuid) content_identifier
      = Ok content_data /\ lacks_price content_data)) /\
  (forall status_code detail,
     get_content_metadata_for_customer (fst enterprise_customer_uuid) content_identifier
     = Raise (HTTPError status_code detail) ->
     status_code <> 404 ->
     get content_identifier enterprise_customer_uuid
     = Ok {| data := Text (String.append
                             "Failed to fetch data from catalog service with exc: "
                             detail);
             status := status_code |}).
Proof.
  unfold get, get_body, lacks_price. split.
  - destruct (get_content_metadata_for_customer _ _) as [cd|e] eqn:Ho.
    + destruct (resolve_source cd) as [[src mode]|e] eqn:Hr.
      * destruct (truthy (price_for_content cd mode)) eqn:Hp; cbn [negb]; split.
        -- intros [body Hb]. discriminate.
        -- intros [[detail Hd]|(cd' & Hcd & src' & mode' & Hr' & Hp')];
             [discriminate|].
           injection Hcd as <-. rewrite Hr in Hr'. injection Hr' as <- <-. congruence.
        -- intros _. right. exists cd. split; [reflexivity|]. now exists src, mode.
        -- intros _. now eexists.
      * pose proof (resolve_source_raises _ _ Hr) as He. subst e. split.
        -- intros [body Hb]. discriminate.
        -- intros [[detail Hd]|(cd' & Hcd & src' & mode' & Hr' & _)];
             [discriminate|].
           injection Hcd as <-. congruence.
    + destruct e as [m|m|m|m|code detail|n]; split;
        try (intros [body Hb]; discriminate);
        try (intros [[detail Hd]|(cd' & Hcd & _)]; discriminate).
      * destruct (Z.eqb code 404) eqn:Hc.
        -- apply Z.eqb_eq in Hc as ->. intros _. left. now exists detail.
        -- intros [body Hb]. injection Hb as _ Hs. apply Z.eqb_neq in Hc. contradiction.
      * intros [[detail' Hd]|(cd' & Hcd & _)]; [|discriminate].
        injection Hd as -> _. cbn. now eexists.
  - intros code detail -> Hne.
    apply Z.eqb_neq in Hne. now rewrite Hne.
Qed.

End ViewFacts.

(* ===================================================================== *)
(** ** The model at work on the concrete deployment *)
(* ===================================================================== *)

(** C2, on the code. The enrollment call raises while alice redeems the
    offline course. The original error reaches the caller and no committed
    transaction exists for the triple afterwards, but [rollback_transaction]
    has done nothing: the row created for the attempt is still in the
    ledger, in state "created". The retry creates no new row; it is handed
    that same row by the upsert and commits it. *)
Theorem rollback_leaves_pending_row :
  let attempt :=
    @redeem Demo.services Demo.subsidy 1 Demo.offline_course "policy-a" None in
  exists row w1 w2,
    attempt Demo.world = (Raise (OtherException "ConnectionError"), w1) /\
    table w1 = table Demo.world ++ [row] /\
    Ledger.state row = Ledger.CREATED /\
    Ledger.lms_user_id row = Some 1 /\
    Ledger.content_key row = Some Demo.offline_course /\
    @get_redemption Demo.services Demo.subsidy 1 Demo.offline_course w1 = (Ok None, w1) /\
    attempt w1
    = (Ok (Some (Ledger.set_state
                   (Ledger.set_reference row (Some "fulfillment-0001")
                      (Some OCM_ENROLLMENT_REFERENCE_TYPE))
                   Ledger.COMMITTED), true), w2) /\
    List.length (table w2) = List.length (table w1).
Proof.
  eexists. eexists. eexists.
  split; [vm_compute; reflexivity|].
  repeat split; vm_compute; reflexivity.
Qed.

(** C3, the claim as stated fails: with a reference_type and no
    reference_id, exactly one of the pair is supplied, and
    [commit_transaction] raises nothing: it commits the pending
    transaction and saves it. *)
Lemma commit_reference_type_alone_commits :
  let reference_type := Some OCM_ENROLLMENT_REFERENCE_TYPE in
  let outcome :=
    @commit_transaction Demo.services Demo.subsidy Demo.pending None reference_type
      Demo.busy_world in
  supplied reference_type /\ ~ supplied None /\
  fst outcome = Ok (Ledger.set_state Demo.pending Ledger.COMMITTED) /\
  (forall msg, fst outcome <> Raise (ValueError msg)) /\
  In (Ledger.set_state Demo.pending Ledger.COMMITTED) (table (snd outcome)).
Proof.
  cbv zeta. split; [reflexivity|]. split; [discriminate|].
  split; [reflexivity|]. split; [discriminate|].
  vm_compute. right. left. reflexivity.
Qed.

(** The scenario of the specification: with a balance of 20000 and a price
    of 14900 the content is redeemable, and the balance after the
    redemption is 5100. *)
Example balance_after_redeem :
  @is_redeemable Demo.services Demo.subsidy Demo.course Demo.world
  = (Ok (true, 14900), Demo.world) /\
  @current_balance Demo.services Demo.subsidy
    (snd (@redeem Demo.services Demo.subsidy 1 Demo.course "policy-a" None Demo.world))
  = (Ok 5100,
     snd (@redeem Demo.services Demo.subsidy 1 Demo.course "policy-a" None Demo.world)).
Proof. split; vm_compute; reflexivity. Qed.

Lemma get_redemption_only_committed_witness :
  @get_redemption Demo.services Demo.subsidy 1 Demo.course Demo.busy_world
  = (Ok None, Demo.busy_world) /\
  exists t,
    @get_redemption Demo.services Demo.subsidy 1 Demo.exec_ed_course Demo.busy_world
    = (Ok (Some t), Demo.busy_world) /\
    Ledger.state t = Ledger.COMMITTED.
Proof.
  split.
  - destruct (@get_redemption_only_committed Demo.services Demo.subsidy 1 Demo.course
                Demo.busy_world) as (found & Hg & _ & Hnone).
    rewrite Hg, Hnone; [reflexivity|].
    intros t [<-|[<-|[<-|[]]]] _ Hu Hk;
      [discriminate Hu | left; reflexivity | discriminate Hk].
  - destruct (@get_redemption_only_committed Demo.services Demo.subsidy 1
                Demo.exec_ed_course Demo.busy_world) as (found & Hg & Hsome & _).
    exists Demo.committed. split; [reflexivity|].
    apply (Hsome Demo.committed).
    rewrite (eq_refl : @get_redemption Demo.services Demo.subsidy 1 Demo.exec_ed_course
                         Demo.busy_world = (Ok (Some Demo.committed), Demo.busy_world))
      in Hg.
    now injection Hg.
Defined.

Lemma redeem_idempotent_witness :
  let call := @redeem Demo.services Demo.subsidy 1 Demo.course "policy-a" None in
  @key_names_redemption Demo.services Demo.subsidy 1 Demo.course "policy-a" None
    Demo.world /\
  exists t w1,
    call Demo.world = (Ok (Some t, true), w1) /\
    Ledger.state t = Ledger.COMMITTED /\
    call w1 = (Ok (Some t, false), w1).
Proof.
  cbv zeta.
  assert (@key_names_redemption Demo.services Demo.subsidy 1 Demo.course "policy-a" None
            Demo.world) as Hkey.
  { intros p r Hp [<-|[]] Hk. vm_compute in Hp. injection Hp as <-.
    vm_compute in Hk. discriminate. }
  split; [exact Hkey|].
  eexists. eexists. split; [vm_compute; reflexivity|].
  eapply (proj2 (@redeem_idempotent Demo.services Demo.subsidy 1 Demo.course "policy-a"
                   None Demo.world)).
  - exact Hkey.
  - vm_compute. reflexivity.
Defined.

Lemma redeem_ignores_policy_witness :
  Ledger.subsidy_access_policy_uuid Demo.committed = Some "policy-a" /\
  exists t,
    @redeem Demo.services Demo.subsidy 1 Demo.exec_ed_course "policy-b" None
      Demo.busy_world
    = (Ok (Some t, false), Demo.busy_world) /\
    Ledger.state t = Ledger.COMMITTED.
Proof.
  split; [reflexivity|].
  destruct (@redeem_ignores_policy Demo.services Demo.subsidy 1 Demo.exec_ed_course
              Demo.busy_world Demo.committed)
    with (subsidy_access_policy_uuid := "policy-b") (idempotency_key := @None string)
    as (t & _ & Hr & _ & Hst & _).
  - right. right. left. reflexivity.
  - reflexivity.
  - reflexivity.
  - reflexivity.
  - reflexivity.
  - exists t. split; assumption.
Defined.

Lemma redeem_not_redeemable_witness :
  @is_redeemable Demo.services Demo.subsidy Demo.exec_ed_course Demo.busy_world
  = (Ok (false, 59949), Demo.busy_world) /\
  @redeem Demo.services Demo.subsidy 2 Demo.exec_ed_course "policy-a" None Demo.busy_world
  = (Ok (None, false), Demo.busy_world).
Proof.
  apply (@redeem_not_redeemable Demo.services Demo.subsidy 2 Demo.exec_ed_course
           "policy-a" None Demo.busy_world 59949 14900).
  - vm_compute. reflexivity.
  - vm_compute. reflexivity.
  - vm_compute. reflexivity.
  - lia.
Defined.

Lemma is_redeemable_boundary_witness :
  exists balance redeemable,
    @current_balance Demo.services Demo.subsidy Demo.busy_world
    = (Ok balance, Demo.busy_world) /\
    @is_redeemable Demo.services Demo.subsidy Demo.course Demo.busy_world
    = (Ok (redeemable, 14900), Demo.busy_world) /\
    (redeemable = true <-> balance >= 14900) /\
    (balance = 14900 -> redeemable = true).
Proof.
  apply (@is_redeemable_boundary Demo.services Demo.subsidy Demo.course Demo.busy_world
           14900).
  vm_compute. reflexivity.
Defined.

Lemma redeem_outside_validity_window_witness :
  expiration_datetime Demo.subsidy = Some 2000 /\ 2000 < clock Demo.world /\
  @is_redeemable Demo.services Demo.subsidy Demo.course Demo.world
  = (Ok (true, 14900), Demo.world) /\
  exists t w1,
    @redeem Demo.services Demo.subsidy 1 Demo.course "policy-a" None Demo.world
    = (Ok (Some t, true), w1) /\
    Ledger.state t = Ledger.COMMITTED /\
    Ledger.ledger t = ledger Demo.subsidy /\
    In t (table w1).
Proof.
  split; [reflexivity|]. split; [reflexivity|].
  apply (@redeem_outside_validity_window Demo.services Demo.subsidy 1 Demo.course
           "policy-a" None Demo.world 14900 20000).
  - vm_compute. reflexivity.
  - vm_compute. reflexivity.
  - vm_compute. reflexivity.
  - lia.
  - intros r. eexists. eexists. vm_compute. reflexivity.
Defined.

Lemma commit_transaction_contract_witness :
  supplied (Some "fulfillment-0002") /\ ~ supplied None /\
  @commit_transaction Demo.services Demo.subsidy Demo.pending
    (Some "fulfillment-0002") None Demo.busy_world
  = (Raise (ValueError "A reference_id was provided without a reference_type."),
     Demo.busy_world).
Proof.
  split; [reflexivity|]. split; [discriminate|].
  apply (proj1 (@commit_transaction_contract Demo.services Demo.subsidy Demo.pending
                  (Some "fulfillment-0002") None Demo.busy_world)).
  - reflexivity.
  - discriminate.
Defined.

Lemma price_for_content_cents_witness :
  @price_for_content Demo.services Demo.subsidy Demo.course = Ok 14900 /\
  @price_for_content Demo.services Demo.subsidy Demo.exec_ed_course = Ok 59949.
Proof.
  split.
  - apply (proj1 (proj2 (@price_for_content_cents Demo.services Demo.subsidy Demo.course))).
    reflexivity.
  - apply (proj2 (proj2 (@price_for_content_cents Demo.services Demo.subsidy
                           Demo.exec_ed_course))).
    reflexivity.
Defined.

Lemma content_metadata_not_found_witness :
  (exists body,
     @ContentMetadataViewSet.get Demo.catalog_client "edX+Free" ("customer-1", [])
     = Ok {| ContentMetadataViewSet.data := body;
             ContentMetadataViewSet.status := 404 |}) /\
  @ContentMetadataViewSet.get Demo.catalog_client "edX+Down" ("customer-1", [])
  = Ok {| ContentMetadataViewSet.data :=
            ContentMetadataViewSet.Text
              "Failed to fetch data from catalog service with exc: Service Unavailable";
          ContentMetadataViewSet.status := 503 |}.
Proof.
  split.
  - apply (proj1 (@content_metadata_not_found Demo.catalog_client "edX+Free"
                    ("customer-1", []))).
    right. exists Demo.unpriced_metadata. split; [reflexivity|].
    exists (JStr "2u"), ContentMetadataViewSet.EXECUTIVE_EDUCATION_MODE.
    split; reflexivity.
  - apply (proj2 (@content_metadata_not_found Demo.catalog_client "edX+Down"
                    ("customer-1", [])) 503 "Service Unavailable").
    + reflexivity.
    + discriminate.
Defined.

(* ===================================================================== *)
(** ** More about the transaction table *)
(* ===================================================================== *)

Section MoreTableFacts.

Import Ledger.

Lemma fresh_uuid_above (tbl : Table) (x : Transaction) :
  In x tbl -> uuid x < fresh_uuid tbl.
Proof.
  unfold fresh_uuid. induction tbl as [|a tbl IH]; intros Hx; [contradiction|].
  cbn [map fold_right]. destruct Hx as [->|Hx]; [lia|]. specialize (IH Hx). lia.
Qed.

Lemma save_In (t : Transaction) (tbl : Table) : In t (save t tbl).
Proof.
  unfold save. destruct (existsb _ tbl) eqn:He.
  - apply existsb_exists in He as (r & Hr & Hid). apply in_map_iff.
    exists r. now rewrite Hid.
  - apply in_or_app. right. now left.
Qed.

Lemma save_In_inv (t y : Transaction) (tbl : Table) :
  In y (save t tbl) -> y = t \/ (In y tbl /\ uuid y <> uuid t).
Proof.
  unfold save. destruct (existsb _ tbl) eqn:He.
  - intros Hy. apply in_map_iff in Hy as (x & Hx & Hin).
    destruct (Z.eqb (uuid x) (uuid t)) eqn:Hid; [now left|].
    right. subst y. split; [assumption|]. now apply Z.eqb_neq.
  - intros Hy. apply in_app_or in Hy as [Hy|[Hy|[]]]; [|now left].
    right. split; [assumption|]. intros Hid.
    assert (existsb (fun r => Z.eqb (uuid r) (uuid t)) tbl = true) as Habs.
    { apply existsb_exists. exists y. split; [assumption|]. now apply Z.eqb_eq. }
    congruence.
Qed.

Lemma save_keeps (t y : Transaction) (tbl : Table) :
  In y tbl -> uuid y <> uuid t -> In y (save t tbl).
Proof.
  intros Hy Hid. unfold save. destruct (existsb _ tbl).
  - apply in_map_iff. exists y. split; [|assumption].
    apply Z.eqb_neq in Hid. now rewrite Hid.
  - apply in_or_app. now left.
Qed.

Lemma save_length (t : Transaction) (tbl : Table) :
  (List.length tbl <= List.length (save t tbl))%nat /\
  (forall r, In r tbl -> uuid r = uuid t -> List.length (save t tbl) = List.length tbl).
Proof.
  unfold save. split.
  - destruct (existsb _ tbl).
    + now rewrite length_map.
    + rewrite length_app. cbn. lia.
  - intros r Hr Hid.
    assert (existsb (fun x => Z.eqb (uuid x) (uuid t)) tbl = true) as ->.
    { apply existsb_exists. exists r. split; [assumption|]. now apply Z.eqb_eq. }
    apply length_map.
Qed.

Lemma save_idempotent (t : Transaction) (tbl : Table) :
  save t (save t tbl) = save t tbl.
Proof.
  assert (existsb (fun r => Z.eqb (uuid r) (uuid t)) (save t tbl) = true) as He.
  { apply existsb_exists. exists t. split; [apply save_In|apply Z.eqb_refl]. }
  unfold save at 1. rewrite He.
  unfold save. destruct (existsb _ tbl) eqn:Hex.
  - rewrite map_map. apply map_ext. intros a.
    destruct (Z.eqb (uuid a) (uuid t)) eqn:Ha; [now rewrite Z.eqb_refl|now rewrite Ha].
  - rewrite map_app. cbn [map]. rewrite Z.eqb_refl. f_equal.
    rewrite <- (map_id tbl) at 2. apply map_ext_in. intros a Ha.
    destruct (Z.eqb (uuid a) (uuid t)) eqn:Hid; [|reflexivity].
    assert (existsb (fun r => Z.eqb (uuid r) (uuid t)) tbl = true) as Habs
      by (apply existsb_exists; now exists a).
    congruence.
Qed.

(** Saving the object of a row that was just inserted under a fresh key. *)
Lemma save_appended (t r : Transaction) (tbl : Table) :
  uuid t = uuid r -> (forall x, In x tbl -> uuid x <> uuid r) ->
  save t (tbl ++ [r]) = tbl ++ [t].
Proof.
  intros Hid Hfresh. unfold save.
  assert (existsb (fun x => Z.eqb (uuid x) (uuid t)) (tbl ++ [r]) = true) as ->.
  { apply existsb_exists. exists r. split; [apply in_or_app; right; now left|].
    apply Z.eqb_eq. congruence. }
  rewrite map_app. cbn [map]. rewrite <- Hid, Z.eqb_refl. f_equal.
  rewrite <- (map_id tbl) at 2. apply map_ext_in. intros a Ha.
  destruct (Z.eqb (uuid a) (uuid t)) eqn:Ha'; [|reflexivity].
  apply Z.eqb_eq in Ha'. exfalso. apply (Hfresh a Ha). congruence.
Qed.

Lemma balance_app (l : Z) (tbl : Table) (t : Transaction) :
  balance l (tbl ++ [t]) =
  balance l tbl + (if in_ledger l t && has_state COMMITTED t then quantity t else 0).
Proof.
  unfold balance. rewrite !filter_app, !map_app, !fold_right_app. cbn [filter].
  destruct (in_ledger l t); cbn [filter andb map fold_right];
    [destruct (has_state COMMITTED t); cbn [map fold_right]|].
  - rewrite Z.add_0_r.
    generalize (map quantity (filter (has_state COMMITTED) (filter (in_ledger l) tbl))).
    intros qs. induction qs as [|q qs IH]; cbn [fold_right]; [lia|]. rewrite IH. lia.
  - lia.
  - lia.
Qed.

End MoreTableFacts.

(* ===================================================================== *)
(** ** More about the engine *)
(* ===================================================================== *)

Section EngineCoverage.

Context `{Collaborators}.

Lemma redeem_outcome_holds (self : Subsidy) (learner : Z) (ck policy : string)
    (key : option string) (w : World) :
  redeem_outcome self learner ck policy key w (redeem self learner ck policy key w).
Proof.
  rewrite redeem_run.
  destruct (Ledger.first _) as [e|] eqn:Hf; [now apply outcome_found|].
  destruct (price_for_content self ck) as [p|e] eqn:Hp;
    [|now apply outcome_price_error].
  destruct (Z.geb _ p) eqn:Hge; rewrite Z.geb_leb in Hge.
  - apply Z.leb_le in Hge.
    destruct (Ledger.create_transaction (ledger self) (-1 * p)
                (redemption_key self (-1 * p) learner ck policy key)
                (Some learner) (Some ck) (Some policy) (table w))
      as [r tbl'] eqn:Hc.
    rewrite (create_redemption_run _ _ _ _ _ _ _ _ _ Hp Hc).
    destruct (enroll learner ck r (lms w)) as [[rid|e] s'] eqn:He.
    + now apply (outcome_created _ _ _ _ _ _ p r tbl' rid s').
    + now apply (outcome_enroll_error _ _ _ _ _ _ p r tbl' e s').
  - apply Z.leb_gt in Hge. now apply (outcome_not_redeemable _ _ _ _ _ _ p).
Qed.

Lemma committed_with_fields (r : Ledger.Transaction) (rid : option string) :
  Ledger.uuid (committed_with r rid) = Ledger.uuid r /\
  Ledger.ledger (committed_with r rid) = Ledger.ledger r /\
  Ledger.quantity (committed_with r rid) = Ledger.quantity r /\
  Ledger.state (committed_with r rid) = Ledger.COMMITTED /\
  Ledger.lms_user_id (committed_with r rid) = Ledger.lms_user_id r /\
  Ledger.content_key (committed_with r rid) = Ledger.content_key r /\
  Ledger.subsidy_access_policy_uuid (committed_with r rid)
  = Ledger.subsidy_access_policy_uuid r /\
  Ledger.idempotency_key (committed_with r rid) = Ledger.idempotency_key r.
Proof. unfold committed_with. now destruct (truthy_str rid). Qed.

Lemma first_filter_None (self : Subsidy) (learner : Z) (ck : string) (w : World) :
  Ledger.first (filter (is_redemption self learner ck) (table w)) = None ->
  forall y, In y (table w) -> is_redemption self learner ck y = false.
Proof.
  intros Hf. apply (get_redemption_None self learner ck w w).
  rewrite get_redemption_query. now rewrite Hf.
Qed.

Lemma created_row_not_redemption (self : Subsidy) (learner : Z) (ck : string)
    (r : Ledger.Transaction) :
  Ledger.state r = Ledger.CREATED -> is_redemption self learner ck r = false.
Proof.
  intros Hst. destruct (is_redemption self learner ck r) eqn:Hq; [|reflexivity].
  apply is_redemption_true in Hq as (_ & _ & _ & Hq). congruence.
Qed.

(** X1. What a returned pair means. created=True comes with a committed
    transaction that is in the ledger afterwards, and only when there was
    no redemption before; created=False leaves the world as it was, and
    comes either with the redemption that already existed or, with none,
    because the balance does not cover the price. *)
Theorem redeem_result_explained (self : Subsidy) (learner_id : Z) (content_key : string)
    (subsidy_access_policy_uuid : string) (idempotency_key : option string)
    (w w1 : World) (found : option Ledger.Transaction) (created : bool) :
  redeem self learner_id content_key subsidy_access_policy_uuid idempotency_key w
  = (Ok (found, created), w1) ->
  (created = true /\
   get_redemption self learner_id content_key w = (Ok None, w) /\
   exists t, found = Some t /\ Ledger.state t = Ledger.COMMITTED /\ In t (table w1)) \/
  (created = false /\ w1 = w /\
   exists t, found = Some t /\
             get_redemption self learner_id content_key w = (Ok (Some t), w)) \/
  (created = false /\ w1 = w /\ found = None /\
   get_redemption self learner_id content_key w = (Ok None, w) /\
   exists price, is_redeemable self content_key w = (Ok (false, price), w)).
Proof.
  intros Hred.
  pose proof (redeem_outcome_holds self learner_id content_key
                subsidy_access_policy_uuid idempotency_key w) as Ho.
  rewrite Hred in Ho. remember (Ok (found, created), w1) as out eqn:Hout.
  destruct Ho as [existing Hf | e Hf Hp | p Hf Hp Hlt
                 | p r tbl' e s' Hf Hp Hle Hc He | p r tbl' rid s' Hf Hp Hle Hc He];
    try discriminate; injection Hout as <- <- <-.
  - right. left. repeat split. exists existing. split; [reflexivity|].
    rewrite get_redemption_query. now rewrite Hf.
  - right. right. repeat split.
    + rewrite get_redemption_query. now rewrite Hf.
    + exists p. rewrite (is_redeemable_run _ _ _ _ Hp).
      assert (Z.geb (Ledger.balance (ledger self) (table w)) p = false) as ->
        by (rewrite Z.geb_leb; apply Z.leb_gt; lia).
      reflexivity.
  - left. split; [reflexivity|]. split.
    + rewrite get_redemption_query. now rewrite Hf.
    + exists (committed_with r rid). split; [reflexivity|].
      split; [apply committed_with_fields|]. cbn [table]. apply save_In.
Qed.

(** X2. A price that cannot be resolved is nobody's insufficient balance:
    when the catalog call raises, [price_for_content] raises the same
    exception unchanged, so does [is_redeemable], and so does [redeem]
    unless a redemption already exists; the world stays as it was, with no
    transaction created and no enrollment attempted. *)
Theorem redeem_price_error (self : Subsidy) (learner_id : Z) (content_key : string)
    (subsidy_access_policy_uuid : string) (idempotency_key : option string)
    (w : World) (e : Exception) :
  get_course_price (enterprise_customer_uuid self) content_key = Raise e ->
  get_redemption self learner_id content_key w = (Ok None, w) ->
  price_for_content self content_key = Raise e /\
  is_redeemable self content_key w = (Raise e, w) /\
  redeem self learner_id content_key subsidy_access_policy_uuid idempotency_key w
  = (Raise e, w).
Proof.
  intros Hc Hg.
  assert (price_for_content self content_key = Raise e) as Hp
    by (unfold price_for_content; now rewrite Hc).
  split; [exact Hp|]. split.
  - unfold is_redeemable, bind, lift. now rewrite Hp.
  - rewrite redeem_run. rewrite get_redemption_query in Hg. injection Hg as ->.
    now rewrite Hp.
Qed.


(** X4. A [redeem] that raises leaves nothing a reader of the ledger can
    see: for every subsidy, learner and content [get_redemption] answers as
    before, and every balance is what it was. *)
Theorem failed_redeem_invisible (self : Subsidy) (learner_id : Z) (content_key : string)
    (subsidy_access_policy_uuid : string) (idempotency_key : option string)
    (w w1 : World) (e : Exception) :
  redeem self learner_id content_key subsidy_access_policy_uuid idempotency_key w
  = (Raise e, w1) ->
  forall (other : Subsidy) (learner : Z) (content : string),
    fst (get_redemption other learner content w1)
    = fst (get_redemption other learner content w) /\
    fst (current_balance other w1) = fst (current_balance other w).
Proof.
  intros Hred other learner content.
  pose proof (redeem_outcome_holds self learner_id content_key
                subsidy_access_policy_uuid idempotency_key w) as Ho.
  rewrite Hred in Ho. remember (Raise e, w1) as out eqn:Hout.
  destruct Ho as [existing Hf | e' Hf Hp | p Hf Hp Hlt
                 | p r tbl' e' s' Hf Hp Hle Hc He | p r tbl' rid s' Hf Hp Hle Hc He];
    try discriminate; injection Hout as <- <-.
  - now split.
  - rewrite !get_redemption_query. unfold current_balance. cbn [fst table].
    destruct (create_transaction_stored _ _ _ _ _ _ _ _ _ Hc)
      as (_ & _ & _ & _ & [(_ & _ & ->)|(_ & -> & Hst & _)]); [now split|].
    rewrite filter_app, balance_app. cbn [filter].
    rewrite (created_row_not_redemption other learner content r Hst).
    unfold Ledger.has_state at 1. rewrite Hst. cbn [Ledger.state_eqb].
    rewrite andb_false_r, app_nil_r, Z.add_0_r. now split.
Qed.

(** X5. A first redemption debits exactly the price. With no redemption
    yet, nothing stored under the idempotency key, a balance that covers
    the price and an enrollment that goes through, [redeem] adds one row to
    the ledger: committed, for this learner, content and policy, with
    quantity minus the price; and the balance afterwards is the balance
    before less the price, which is not negative. *)
Theorem redeem_debits_price (self : Subsidy) (learner_id : Z) (content_key : string)
    (subsidy_access_policy_uuid : string) (idempotency_key : option string)
    (w : World) (price balance : Z) :
  get_redemption self learner_id content_key w = (Ok None, w) ->
  price_for_content self content_key = Ok price ->
  current_balance self w = (Ok balance, w) ->
  balance >= price ->
  find (Ledger.has_key (ledger self)
          (redemption_key self (-1 * price) learner_id content_key
             subsidy_access_policy_uuid idempotency_key)) (table w) = None ->
  (forall r, exists rid s', enroll learner_id content_key r (lms w) = (Ok rid, s')) ->
  exists t w1,
    redeem self learner_id content_key subsidy_access_policy_uuid idempotency_key w
    = (Ok (Some t, true), w1) /\
    Ledger.quantity t = - price /\
    Ledger.state t = Ledger.COMMITTED /\
    Ledger.lms_user_id t = Some learner_id /\
    Ledger.content_key t = Some content_key /\
    Ledger.subsidy_access_policy_uuid t = Some subsidy_access_policy_uuid /\
    table w1 = table w ++ [t] /\
    current_balance self w1 = (Ok (balance - price), w1) /\
    0 <= balance - price.
Proof.
  intros Hg Hp Hb Hge Hfind Henroll.
  unfold current_balance in Hb. injection Hb as Hb.
  pose proof (redeem_outcome_holds self learner_id content_key
                subsidy_access_policy_uuid idempotency_key w) as Ho.
  rewrite get_redemption_query in Hg. injection Hg as Hg.
  remember (redeem self learner_id content_key subsidy_access_policy_uuid
              idempotency_key w) as out eqn:Hout.
  destruct Ho as [existing Hf | e Hf Hp' | p Hf Hp' Hlt
                 | p r tbl' e s' Hf Hp' Hle Hc He | p r tbl' rid s' Hf Hp' Hle Hc He];
    try congruence.
  - destruct (Henroll r) as (rid & s'' & He'). congruence.
  - assert (p = price) as -> by congruence.
    remember (-1 * price) as q eqn:Hqv.
    unfold Ledger.create_transaction in Hc. rewrite Hfind in Hc.
    injection Hc as <- <-.
    set (r := {| Ledger.uuid := Ledger.fresh_uuid (table w);
                 Ledger.ledger := ledger self;
                 Ledger.idempotency_key :=
                   redemption_key self q learner_id content_key
                     subsidy_access_policy_uuid idempotency_key;
                 Ledger.quantity := q; Ledger.state := Ledger.CREATED;
                 Ledger.lms_user_id := Some learner_id;
                 Ledger.content_key := Some content_key;
                 Ledger.subsidy_access_policy_uuid := Some subsidy_access_policy_uuid;
                 Ledger.reference_id := None; Ledger.reference_type := None |}) in *.
    destruct (committed_with_fields r rid)
      as (Hid & Hl & Hq & Hst & Hu & Hk & Hpol & _).
    assert (Ledger.save (committed_with r rid) (table w ++ [r])
            = table w ++ [committed_with r rid]) as Hsave.
    { apply save_appended; [exact Hid|].
      intros x Hx. pose proof (fresh_uuid_above _ _ Hx). subst r. cbn [Ledger.uuid]. lia. }
    exists (committed_with r rid). eexists. split; [reflexivity|].
    cbn [table]. rewrite Hsave, Hq, Hu, Hk, Hpol.
    repeat split; try assumption; try reflexivity;
      try (subst r; cbn [Ledger.quantity]; lia).
    unfold current_balance. cbn [table]. rewrite balance_app.
    unfold Ledger.in_ledger, Ledger.has_state. rewrite Hl, Hst, Hq.
    subst r. cbn [Ledger.ledger Ledger.quantity Ledger.state_eqb].
    rewrite Z.eqb_refl. cbn [andb]. do 2 f_equal. lia.
Qed.

(** X6. A row already stored under the idempotency key is used again.
    When the upsert finds one (the leftover of an attempt that failed, or
    any row a caller's key collides with), a successful [redeem] commits
    that very row: same primary key, no row added, and the quantity
    committed is the quantity stored in the row, whatever the price is
    now. *)
Theorem redeem_reuses_stored_row (self : Subsidy) (learner_id : Z) (content_key : string)
    (subsidy_access_policy_uuid : string) (idempotency_key : option string)
    (w : World) (price balance : Z) (stored : Ledger.Transaction) :
  get_redemption self learner_id content_key w = (Ok None, w) ->
  price_for_content self content_key = Ok price ->
  current_balance self w = (Ok balance, w) ->
  balance >= price ->
  find (Ledger.has_key (ledger self)
          (redemption_key self (-1 * price) learner_id content_key
             subsidy_access_policy_uuid idempotency_key)) (table w) = Some stored ->
  (forall r, exists rid s', enroll learner_id content_key r (lms w) = (Ok rid, s')) ->
  exists t w1,
    redeem self learner_id content_key subsidy_access_policy_uuid idempotency_key w
    = (Ok (Some t, true), w1) /\
    Ledger.uuid t = Ledger.uuid stored /\
    Ledger.quantity t = Ledger.quantity stored /\
    Ledger.state t = Ledger.COMMITTED /\
    In t (table w1) /\
    List.length (table w1) = List.length (table w).
Proof.
  intros Hg Hp Hb Hge Hfind Henroll.
  unfold current_balance in Hb. injection Hb as Hb.
  pose proof (redeem_outcome_holds self learner_id content_key
                subsidy_access_policy_uuid idempotency_key w) as Ho.
  rewrite get_redemption_query in Hg. injection Hg as Hg.
  remember (redeem self learner_id content_key subsidy_access_policy_uuid
              idempotency_key w) as out eqn:Hout.
  destruct Ho as [existing Hf | e Hf Hp' | p Hf Hp' Hlt
                 | p r tbl' e s' Hf Hp' Hle Hc He | p r tbl' rid s' Hf Hp' Hle Hc He];
    try congruence.
  - destruct (Henroll r) as (rid & s'' & He'). congruence.
  - assert (p = price) as -> by congruence.
    unfold Ledger.create_transaction in Hc. rewrite Hfind in Hc.
    injection Hc as <- <-.
    destruct (committed_with_fields stored rid) as (Hid & _ & Hq & Hst & _).
    apply find_some in Hfind as [Hin _].
    exists (committed_with stored rid). eexists. split; [reflexivity|].
    cbn [table]. repeat split; try assumption.
    + apply save_In.
    + now apply (proj2 (save_length (committed_with stored rid) (table w)) stored).
Qed.

(** X7. [redeem] deletes nothing and touches one row at most. Whatever it
    returns or raises, the ledger has at least as many rows afterwards,
    and every row it had is still there unchanged, except a row with the
    primary key of the transaction returned with created=True. *)
Theorem redeem_keeps_other_rows (self : Subsidy) (learner_id : Z) (content_key : string)
    (subsidy_access_policy_uuid : string) (idempotency_key : option string)
    (w w1 : World) (result : Result (option Ledger.Transaction * bool)) :
  redeem self learner_id content_key subsidy_access_policy_uuid idempotency_key w
  = (result, w1) ->
  (List.length (table w) <= List.length (table w1))%nat /\
  forall y, In y (table w) ->
    In y (table w1) \/
    exists t, result = Ok (Some t, true) /\ Ledger.uuid y = Ledger.uuid t.
Proof.
  intros Hred.
  pose proof (redeem_outcome_holds self learner_id content_key
                subsidy_access_policy_uuid idempotency_key w) as Ho.
  rewrite Hred in Ho. remember (result, w1) as out eqn:Hout.
  destruct Ho as [existing Hf | e Hf Hp | p Hf Hp Hlt
                 | p r tbl' e s' Hf Hp Hle Hc He | p r tbl' rid s' Hf Hp Hle Hc He];
    injection Hout as <- <-; try (split; [lia|now left]).
  - destruct (create_transaction_stored _ _ _ _ _ _ _ _ _ Hc)
      as (_ & _ & _ & Hkeep & Hcase).
    cbn [table]. split.
    + destruct Hcase as [(_ & _ & ->)|(_ & -> & _)]; [lia|].
      rewrite length_app. lia.
    + intros y Hy. left. now apply Hkeep.
  - destruct (create_transaction_stored _ _ _ _ _ _ _ _ _ Hc)
      as (_ & _ & _ & Hkeep & Hcase).
    cbn [table]. split.
    + pose proof (proj1 (save_length (committed_with r rid) tbl')) as Hlen.
      destruct Hcase as [(_ & _ & ->)|(_ & -> & _)]; [lia|].
      rewrite length_app in Hlen. lia.
    + intros y Hy.
      destruct (Z.eq_dec (Ledger.uuid y) (Ledger.uuid (committed_with r rid)))
        as [Hid|Hid].
      * right. now exists (committed_with r rid).
      * left. apply save_keeps; [now apply Hkeep|exact Hid].
Qed.

(** X8. The link to the enrollment. A transaction returned with
    created=True carries the reference id the enrollment call returned and
    the reference type of OCM enrollments, when that id is truthy. When
    the enrollment call returns no id (None or the empty string) the
    transaction is committed all the same, with the reference fields of
    the row as the upsert returned it. *)
Theorem redeem_reference_link (self : Subsidy) (learner_id : Z) (content_key : string)
    (subsidy_access_policy_uuid : string) (idempotency_key : option string)
    (w w1 : World) (t : Ledger.Transaction) :
  redeem self learner_id content_key subsidy_access_policy_uuid idempotency_key w
  = (Ok (Some t, true), w1) ->
  exists r rid,
    enroll learner_id content_key r (lms w) = (Ok rid, lms w1) /\
    Ledger.uuid t = Ledger.uuid r /\
    Ledger.state t = Ledger.COMMITTED /\
    (truthy_str rid = true ->
     Ledger.reference_id t = rid /\
     Ledger.reference_type t = Some OCM_ENROLLMENT_REFERENCE_TYPE) /\
    (truthy_str rid = false ->
     Ledger.reference_id t = Ledger.reference_id r /\
     Ledger.reference_type t = Ledger.reference_type r).
Proof.
  intros Hred.
  pose proof (redeem_outcome_holds self learner_id content_key
                subsidy_access_policy_uuid idempotency_key w) as Ho.
  rewrite Hred in Ho. remember (Ok (Some t, true), w1) as out eqn:Hout.
  destruct Ho as [existing Hf | e Hf Hp | p Hf Hp Hlt
                 | p r tbl' e s' Hf Hp Hle Hc He | p r tbl' rid s' Hf Hp Hle Hc He];
    try discriminate; injection Hout as <- <-.
  exists r, rid. cbn [lms]. split; [exact He|].
  unfold committed_with. destruct (truthy_str rid); repeat split; intros; congruence.
Qed.

(** X9. Committing twice is committing once: after a successful
    [commit_transaction], committing the returned transaction again with
    the same references returns it again and leaves the world as the first
    commit left it. *)
Theorem commit_transaction_idempotent (self : Subsidy)
    (ledger_transaction t : Ledger.Transaction)
    (reference_id reference_type : option string) (w w1 : World) :
  commit_transaction self ledger_transaction reference_id reference_type w = (Ok t, w1) ->
  commit_transaction self t reference_id reference_type w1 = (Ok t, w1).
Proof.
  unfold commit_transaction, bind, raise, ret, save, with_table.
  destruct (truthy_str reference_id); [destruct (truthy_str reference_type)|];
    cbn [negb]; intros Hc; try discriminate; injection Hc as <- <-;
    cbn [table lms clock]; rewrite save_idempotent; reflexivity.
Qed.

(** X10. Commit, then look up. When a transaction of the subsidy's ledger
    for a learner and a content is committed, and the ledger held no
    redemption for that pair, [get_redemption] for the pair returns
    exactly the committed transaction. *)
Theorem commit_then_get_redemption (self : Subsidy)
    (ledger_transaction t : Ledger.Transaction)
    (reference_id reference_type : option string) (w w1 : World)
    (learner_id : Z) (content_key : string) :
  Ledger.ledger ledger_transaction = ledger self ->
  Ledger.lms_user_id ledger_transaction = Some learner_id ->
  Ledger.content_key ledger_transaction = Some content_key ->
  get_redemption self learner_id content_key w = (Ok None, w) ->
  commit_transaction self ledger_transaction reference_id reference_type w = (Ok t, w1) ->
  get_redemption self learner_id content_key w1 = (Ok (Some t), w1).
Proof.
  intros Hl Hu Hk Hg Hc.
  pose proof (get_redemption_None _ _ _ _ _ Hg) as Hnone.
  assert (is_redemption self learner_id content_key t = true /\
          table w1 = Ledger.save t (table w)) as [Hq Ht].
  { revert Hc. unfold commit_transaction, bind, raise, ret, save, with_table.
    destruct (truthy_str reference_id); [destruct (truthy_str reference_type)|];
      cbn [negb]; intros Hc; try discriminate; injection Hc as <- <-;
      (split; [apply is_redemption_true; now cbn|reflexivity]). }
  rewrite get_redemption_query, Ht. f_equal. f_equal.
  apply first_filter_only; [apply save_In|exact Hq|].
  intros y Hy. apply save_In_inv in Hy as [->|[Hy _]]; [now left|right].
  now apply Hnone.
Qed.

(** X11. The three queries. Each returns rows of the subsidy's own ledger
    only; the learner-and-content query returns exactly the rows the
    learner query and the content query both return; and the transaction
    [get_redemption] returns is one of them. *)
Theorem transactions_queries (self : Subsidy) (lms_user_id : Z) (content_key : string)
    (w : World) (t : Ledger.Transaction) :
  (In t (transactions_for_learner_and_content self lms_user_id content_key w) <->
   In t (transactions_for_learner self lms_user_id w) /\
   In t (transactions_for_content self content_key w)) /\
  (In t (transactions_for_learner self lms_user_id w) <->
   In t (table w) /\ Ledger.ledger t = ledger self /\
   Ledger.lms_user_id t = Some lms_user_id) /\
  (In t (transactions_for_content self content_key w) <->
   In t (table w) /\ Ledger.ledger t = ledger self /\
   Ledger.content_key t = Some content_key) /\
  (get_redemption self lms_user_id content_key w = (Ok (Some t), w) ->
   In t (transactions_for_learner_and_content self lms_user_id content_key w)).
Proof.
  unfold transactions_for_learner_and_content, transactions_for_learner,
    transactions_for_content, all_transactions, get_redemption.
  rewrite !filter_In, andb_true_iff.
  unfold Ledger.in_ledger, Ledger.has_learner, Ledger.has_content.
  rewrite Z.eqb_eq.
  assert (match Ledger.lms_user_id t with Some u => Z.eqb u lms_user_id | None => false end
          = true <-> Ledger.lms_user_id t = Some lms_user_id) as Hu.
  { destruct (Ledger.lms_user_id t) as [u|]; [rewrite Z.eqb_eq|]; split; congruence. }
  assert (match Ledger.content_key t with Some k => String.eqb k content_key | None => false end
          = true <-> Ledger.content_key t = Some content_key) as Hk.
  { destruct (Ledger.content_key t) as [k|]; [rewrite String.eqb_eq|]; split; congruence. }
  rewrite Hu, Hk. split; [tauto|]. split; [tauto|]. split; [tauto|].
  intros Hg. injection Hg as Hf. apply first_In in Hf.
  rewrite filter_In in Hf. destruct Hf as [Hf _].
  unfold transactions_for_learner_and_content, all_transactions in Hf.
  rewrite !filter_In, andb_true_iff in Hf.
  unfold Ledger.in_ledger, Ledger.has_learner, Ledger.has_content in Hf.
  rewrite Z.eqb_eq, Hu, Hk in Hf. tauto.
Qed.

(** X12. [redeem] keeps redemptions unique. If the ledgers hold at most
    one committed transaction per (ledger, learner, content), and the rows
    stored under the idempotency key belong to this learner and content,
    then the same is true after [redeem], whether it returns or raises. *)
Theorem redeem_preserves_uniqueness (self : Subsidy) (learner_id : Z)
    (content_key : string) (subsidy_access_policy_uuid : string)
    (idempotency_key : option string) (w w1 : World)
    (result : Result (option Ledger.Transaction * bool)) :
  one_redemption_per_pair (table w) ->
  key_names_redemption self learner_id content_key subsidy_access_policy_uuid
    idempotency_key w ->
  redeem self learner_id content_key subsidy_access_policy_uuid idempotency_key w
  = (result, w1) ->
  one_redemption_per_pair (table w1).
Proof.
  intros Huniq Hkey Hred.
  pose proof (redeem_outcome_holds self learner_id content_key
                subsidy_access_policy_uuid idempotency_key w) as Ho.
  rewrite Hred in Ho. remember (result, w1) as out eqn:Hout.
  destruct Ho as [existing Hf | e Hf Hp | p Hf Hp Hlt
                 | p r tbl' e s' Hf Hp Hle Hc He | p r tbl' rid s' Hf Hp Hle Hc He];
    injection Hout as <- <-; try exact Huniq; cbn [table].
  - (* the enrollment raised: at most a row in state "created" was added *)
    destruct (create_transaction_stored _ _ _ _ _ _ _ _ _ Hc)
      as (_ & _ & _ & _ & [(_ & _ & ->)|(_ & -> & Hst & _)]); [exact Huniq|].
    intros other l c a b Ha Hb Hqa Hqb.
    apply in_app_or in Ha as [Ha|[<-|[]]], Hb as [Hb|[<-|[]]];
      try (rewrite (created_row_not_redemption other l c r Hst) in *; discriminate).
    now apply (Huniq other l c).
  - (* committed: the new redemption is the only one of its pair *)
    pose proof (first_filter_None _ _ _ _ Hf) as Hnone.
    destruct (create_transaction_stored _ _ _ _ _ _ _ _ _ Hc)
      as (Hin & Hl & Hrows & _ & Hcase).
    destruct (committed_with_fields r rid) as (Hid & Hl' & _ & Hst & Hu & Hk & _).
    assert (Ledger.lms_user_id r = Some learner_id /\
            Ledger.content_key r = Some content_key) as [Hur Hkr].
    { destruct Hcase as [(Hold & Hhas & _)|(_ & _ & _ & _ & Hur & Hkr & _)].
      - exact (Hkey p r Hp Hold Hhas).
      - now split. }
    assert (forall y, In y tbl' -> y <> r -> In y (table w)) as Hold.
    { intros y Hy Hne. destruct (Hrows y Hy) as [->|Hy']; [congruence|exact Hy']. }
    assert (forall other l c y,
              In y (Ledger.save (committed_with r rid) tbl') ->
              is_redemption other l c y = true ->
              y = committed_with r rid \/ In y (table w)) as Hsplit.
    { intros other l c y Hy Hq. apply save_In_inv in Hy as [->|[Hy Hne]]; [now left|].
      right. apply Hold; [exact Hy|]. intros ->. congruence. }
    assert (forall other l c y,
              is_redemption other l c (committed_with r rid) = true ->
              In y (table w) -> is_redemption other l c y = true -> False) as Hclash.
    { intros other l c y Hqt Hy Hqy.
      apply is_redemption_true in Hqt as (Hlt & Hut & Hkt & _).
      pose proof Hqy as Hqy'. apply is_redemption_true in Hqy' as (Hly & Huy & Hky & Hsy).
      assert (l = learner_id) as -> by congruence.
      assert (c = content_key) as -> by congruence.
      assert (is_redemption self learner_id content_key y = true) as Habs.
      { apply is_redemption_true. repeat split; congruence. }
      rewrite (Hnone y Hy) in Habs. discriminate. }
    intros other l c a b Ha Hb Hqa Hqb.
    destruct (Hsplit other l c a Ha Hqa) as [->|Ha'],
             (Hsplit other l c b Hb Hqb) as [->|Hb'].
    + reflexivity.
    + exfalso. exact (Hclash other l c b Hqa Hb' Hqb).
    + exfalso. exact (Hclash other l c a Hqb Ha' Hqa).
    + now apply (Huniq other l c).
Qed.

End EngineCoverage.

(* ===================================================================== *)
(** ** More about the content-metadata read path *)
(* ===================================================================== *)

Section ViewCoverage.

Import ContentMetadataViewSet.

Context `{EnterpriseCatalogApiClient}.

(** X13. Mode selection and the payload. For metadata without a
    [product_source] (absent, null or empty) the price is looked up under
    the "verified" mode and the source reported is "edX"; for metadata
    whose [product_source] is a non-empty object it is looked up under the
    "paid-executive-education" mode and the source reported is the
    object's [name]. With a price found the answer is 200 and carries the
    uuid, the key, the source and the price. *)
Theorem get_priced_payload (content_identifier : string)
    (enterprise_customer_uuid : string * list string)
    (content_data : list (string * Json)) :
  get_content_metadata_for_customer (fst enterprise_customer_uuid) content_identifier
  = Ok content_data ->
  (truthy (dict_get content_data "product_source") = false ->
   truthy (price_for_content content_data "verified") = true ->
   get content_identifier enterprise_customer_uuid
   = Ok {| data := Payload
                     [("content_uuid", dict_get content_data "uuid");
                      ("content_key", dict_get content_data "key");
                      ("source", JStr "edX");
                      ("content_price", price_for_content content_data "verified")];
           status := 200 |}) /\
  (forall source_dict,
     dict_get content_data "product_source" = JDict source_dict ->
     source_dict <> [] ->
     truthy (price_for_content content_data "paid-executive-education") = true ->
     get content_identifier enterprise_customer_uuid
     = Ok {| data := Payload
                       [("content_uuid", dict_get content_data "uuid");
                        ("content_key", dict_get content_data "key");
                        ("source", dict_get source_dict "name");
                        ("content_price",
                         price_for_content content_data "paid-executive-education")];
             status := 200 |}).
Proof.
  intros Ho. unfold get, get_body, resolve_source. rewrite Ho. split.
  - intros -> Hp. unfold EDX_VERIFIED_COURSE_MODE. now rewrite Hp.
  - intros d -> Hd Hp. destruct d as [|entry d]; [congruence|].
    cbn [truthy]. unfold EXECUTIVE_EDUCATION_MODE. now rewrite Hp.
Qed.

(** X14. The view turns every HTTPError into a response, so it never
    raises one. What it does raise is exactly what the oracle raised
    other than an HTTPError, or what the source lookup raised on a
    [product_source] that is truthy and not an object. *)
Theorem get_never_raises_http_error (content_identifier : string)
    (enterprise_customer_uuid : string * list string) :
  (forall status_code detail,
     get content_identifier enterprise_customer_uuid
     <> Raise (HTTPError status_code detail)) /\
  (forall e,
     get content_identifier enterprise_customer_uuid = Raise e <->
     (get_content_metadata_for_customer (fst enterprise_customer_uuid) content_identifier
      = Raise e /\ forall status_code detail, e <> HTTPError status_code detail) \/
     (exists content_data,
        get_content_metadata_for_customer (fst enterprise_customer_uuid)
          content_identifier = Ok content_data /\
        resolve_source content_data = Raise e)).
Proof.
  assert (forall e,
     get content_identifier enterprise_customer_uuid = Raise e <->
     (get_content_metadata_for_customer (fst enterprise_customer_uuid) content_identifier
      = Raise e /\ forall status_code detail, e <> HTTPError status_code detail) \/
     (exists content_data,
        get_content_metadata_for_customer (fst enterprise_customer_uuid)
          content_identifier = Ok content_data /\
        resolve_source content_data = Raise e)) as Hiff.
  { intros e. unfold get, get_body.
    destruct (get_content_metadata_for_customer _ _) as [cd|e0] eqn:Ho.
    - destruct (resolve_source cd) as [[src mode]|e1] eqn:Hr.
      + destruct (negb (truthy (price_for_content cd mode))); split;
          try discriminate;
          intros [[Habs _]|(cd' & Hcd & Hr')]; try discriminate;
          injection Hcd as <-; congruence.
      + pose proof (resolve_source_raises _ _ Hr) as ->. split.
        * intros He. injection He as <-. right. now exists cd.
        * intros [[Habs _]|(cd' & Hcd & Hr')]; [discriminate|].
          injection Hcd as <-. congruence.
    - destruct e0 as [m|m|m|m|code detail|n];
        try (split;
             [intros He; injection He as <-; left; split;
                [reflexivity|congruence]
             |intros [[He _]|(cd' & Hcd & _)];
                [injection He as <-; reflexivity|discriminate]]).
      split.
      + destruct (Z.eqb code 404); discriminate.
      + intros [[He Hne]|(cd' & Hcd & _)]; [|discriminate].
        injection He as <-. exfalso. now apply (Hne code detail). }
  split; [|exact Hiff].
  intros code detail Hg. apply Hiff in Hg as [[_ Hne]|(cd & _ & Hr)].
  - now apply (Hne code detail).
  - apply resolve_source_raises in Hr. discriminate.
Qed.

End ViewCoverage.

(* ===================================================================== *)
(** ** Facts about role assignments *)
(* ===================================================================== *)

Section RbacFacts.

Import Rbac.

Lemma hex_value_digit (d : Z) : 0 <= d < 16 -> hex_value (hex_digit d) = d.
Proof.
  intros Hd.
  assert (d = 0 \/ d = 1 \/ d = 2 \/ d = 3 \/ d = 4 \/ d = 5 \/ d = 6 \/ d = 7 \/
          d = 8 \/ d = 9 \/ d = 10 \/ d = 11 \/ d = 12 \/ d = 13 \/ d = 14 \/ d = 15)
    as Hcases by lia.
  repeat (destruct Hcases as [->|Hcases]; [reflexivity|]). subst. reflexivity.
Qed.

Lemma hex_fixed_length (n : nat) (v : Z) : String.length (hex_fixed n v) = n.
Proof. induction n as [|k IH]; cbn [hex_fixed String.length]; congruence. Qed.

Lemma hex_fixed_inj (n : nat) (u v : Z) :
  hex_fixed n u = hex_fixed n v -> u mod 16 ^ Z.of_nat n = v mod 16 ^ Z.of_nat n.
Proof.
  induction n as [|k IH]; intros Heq.
  - cbn. now rewrite !Z.mod_1_r.
  - cbn [hex_fixed] in Heq. injection Heq as Hd Hrest.
    specialize (IH Hrest).
    assert (0 < 16 ^ Z.of_nat k) as Hpos by (apply Z.pow_pos_nonneg; lia).
    assert ((u / 16 ^ Z.of_nat k) mod 16 = (v / 16 ^ Z.of_nat k) mod 16) as Hdig.
    { rewrite <- (hex_value_digit ((u / 16 ^ Z.of_nat k) mod 16))
        by (apply Z.mod_pos_bound; lia).
      rewrite <- (hex_value_digit ((v / 16 ^ Z.of_nat k) mod 16))
        by (apply Z.mod_pos_bound; lia).
      now rewrite Hd. }
    rewrite Nat2Z.inj_succ, Z.pow_succ_r by lia.
    rewrite (Z.mul_comm 16), !Z.rem_mul_r by lia.
    now rewrite IH, Hdig.
Qed.

Lemma unhyphenate_hyphenate (hex : string) :
  String.length hex = 32%nat -> unhyphenate (hyphenate hex) = hex.
Proof.
  intros Hlen.
  do 32 (destruct hex as [|? hex]; [discriminate Hlen|]).
  destruct hex; [reflexivity|discriminate Hlen].
Qed.

Lemma uuid_str_inj (u v : Z) :
  0 <= u < 2 ^ 128 -> 0 <= v < 2 ^ 128 -> uuid_str u = uuid_str v -> u = v.
Proof.
  intros Hu Hv Heq. unfold uuid_str in Heq.
  apply (f_equal unhyphenate) in Heq.
  rewrite !unhyphenate_hyphenate in Heq by apply hex_fixed_length.
  apply hex_fixed_inj in Heq.
  change (16 ^ Z.of_nat 32) with (2 ^ 128) in Heq.
  now rewrite !Z.mod_small in Heq.
Qed.

Lemma uuid_str_not_all_access (u : Z) : uuid_str u <> ALL_ACCESS_CONTEXT.
Proof.
  intros Heq. apply (f_equal String.length) in Heq.
  unfold uuid_str in Heq.
  pose proof (hex_fixed_length 32 u) as Hlen.
  remember (hex_fixed 32 u) as hex eqn:Hhex. clear Hhex.
  do 32 (destruct hex as [|? hex]; [discriminate Hlen|]).
  discriminate Heq.
Qed.

(** X15. A role assignment answers the all-access context [*] exactly
    when its enterprise id is null: an assignment scoped to an enterprise
    never grants access to everything. *)
Theorem get_context_all_access_iff_null (self : EnterpriseSubsidyRoleAssignment) :
  get_context self = ALL_ACCESS_CONTEXT <-> enterprise_id self = None.
Proof.
  unfold get_context. destruct (enterprise_id self) as [u|]; split.
  - intros Heq. now apply uuid_str_not_all_access in Heq.
  - discriminate.
  - reflexivity.
  - reflexivity.
Qed.

(** X16. The context tells enterprises apart: two role assignments with
    the same context have the same enterprise id, so a context never
    stands for two customers. *)
Theorem get_context_injective (a b : EnterpriseSubsidyRoleAssignment) :
  valid_assignment a -> valid_assignment b ->
  get_context a = get_context b -> enterprise_id a = enterprise_id b.
Proof.
  unfold valid_assignment, get_context. intros Ha Hb.
  destruct (enterprise_id a) as [u|], (enterprise_id b) as [v|]; intros Heq.
  - f_equal. apply uuid_str_inj; auto.
  - now apply uuid_str_not_all_access in Heq.
  - symmetry in Heq. now apply uuid_str_not_all_access in Heq.
  - reflexivity.
Qed.

End RbacFacts.

(* ===================================================================== *)
(** ** The price conversion, cent by cent *)
(* ===================================================================== *)

Section PriceCoverage.

Context `{Collaborators}.

Lemma within_one_cent_from_spec (n : nat) (start cents : Z) :
  within_one_cent_from n start = true ->
  start <= cents < start + Z.of_nat n ->
  within_one_cent cents = true.
Proof.
  revert start. induction n as [|k IH]; intros start Hall Hin.
  - lia.
  - cbn [within_one_cent_from] in Hall. apply andb_true_iff in Hall as [Hhere Hrest].
    destruct (Z.eq_dec cents start) as [->|Hne]; [exact Hhere|].
    apply (IH (start + 1)); [exact Hrest|lia].
Qed.

Lemma within_one_cent_below_1000_dollars :
  within_one_cent_from (Z.to_nat 100000) 0 = true.
Proof. vm_compute. reflexivity. Qed.

(** X17. The float arithmetic of [price_for_content] is right to the cent
    or one cent short, never over. For every price from 0.00 to 999.99
    that the catalog lists with two decimals, the result is the exact
    amount of cents or one cent less; and one cent less does happen: a
    listed price of 0.29 gives 28. *)
Theorem price_for_content_within_one_cent (self : Subsidy) (content_key : string)
    (cents : Z) :
  0 <= cents < 100000 ->
  get_course_price (enterprise_customer_uuid self) content_key
  = Ok (PriceStr (two_decimals cents)) ->
  (exists price,
     price_for_content self content_key = Ok price /\
     (price = cents \/ price = cents - 1)) /\
  (cents = 29 -> price_for_content self content_key = Ok 28).
Proof.
  intros Hrange Hlisted. unfold price_for_content. rewrite Hlisted. split.
  - pose proof (within_one_cent_from_spec _ 0 cents
                  within_one_cent_below_1000_dollars) as Hok.
    assert (within_one_cent cents = true) as Hc.
    { apply Hok. rewrite Z2Nat.id; lia. }
    unfold within_one_cent in Hc.
    destruct (price_in_cents (PriceStr (two_decimals cents))) as [v|e];
      [|discriminate].
    exists v. split; [reflexivity|].
    apply orb_true_iff in Hc as [Hc|Hc]; apply Z.eqb_eq in Hc; auto.
  - intros ->. vm_compute. reflexivity.
Qed.

End PriceCoverage.

(* ===================================================================== *)
(** ** The further facts at work on the concrete deployment *)
(* ===================================================================== *)

Lemma redeem_result_explained_witness :
  exists found w1,
    @redeem Demo.services Demo.subsidy 1 Demo.course "policy-a" None Demo.world
    = (Ok (found, true), w1) /\
    @get_redemption Demo.services Demo.subsidy 1 Demo.course Demo.world
    = (Ok None, Demo.world) /\
    exists t, found = Some t /\ Ledger.state t = Ledger.COMMITTED /\ In t (table w1).
Proof.
  eexists. eexists. split; [vm_compute; reflexivity|].
  edestruct (@redeem_result_explained Demo.services Demo.subsidy 1 Demo.course "policy-a"
               None Demo.world) as [(_ & Hg)|[(Hc & _)|(Hc & _)]];
    [vm_compute; reflexivity|exact Hg|discriminate Hc|discriminate Hc].
Defined.

Lemma redeem_price_error_witness :
  @price_for_content Demo.services Demo.subsidy "edX+Unlisted"
  = Raise (HTTPError 404 "Not Found") /\
  @is_redeemable Demo.services Demo.subsidy "edX+Unlisted" Demo.world
  = (Raise (HTTPError 404 "Not Found"), Demo.world) /\
  @redeem Demo.services Demo.subsidy 1 "edX+Unlisted" "policy-a" None Demo.world
  = (Raise (HTTPError 404 "Not Found"), Demo.world).
Proof.
  apply (@redeem_price_error Demo.services Demo.subsidy 1 "edX+Unlisted" "policy-a" None
           Demo.world (HTTPError 404 "Not Found")).
  - reflexivity.
  - vm_compute. reflexivity.
Defined.


Lemma failed_redeem_invisible_witness :
  exists w1,
    @redeem Demo.services Demo.subsidy 1 Demo.offline_course "policy-a" None Demo.world
    = (Raise (OtherException "ConnectionError"), w1) /\
    fst (@get_redemption Demo.services Demo.subsidy 1 Demo.offline_course w1)
    = fst (@get_redemption Demo.services Demo.subsidy 1 Demo.offline_course Demo.world) /\
    fst (@current_balance Demo.services Demo.subsidy w1)
    = fst (@current_balance Demo.services Demo.subsidy Demo.world).
Proof.
  eexists. split; [vm_compute; reflexivity|].
  apply (@failed_redeem_invisible Demo.services Demo.subsidy 1 Demo.offline_course
           "policy-a" None Demo.world _ (OtherException "ConnectionError")).
  vm_compute. reflexivity.
Defined.

Lemma redeem_debits_price_witness :
  exists t w1,
    @redeem Demo.services Demo.subsidy 1 Demo.course "policy-a" None Demo.world
    = (Ok (Some t, true), w1) /\
    Ledger.quantity t = - 14900 /\
    Ledger.state t = Ledger.COMMITTED /\
    Ledger.lms_user_id t = Some 1 /\
    Ledger.content_key t = Some Demo.course /\
    Ledger.subsidy_access_policy_uuid t = Some "policy-a" /\
    table w1 = table Demo.world ++ [t] /\
    @current_balance Demo.services Demo.subsidy w1 = (Ok (20000 - 14900), w1) /\
    0 <= 20000 - 14900.
Proof.
  apply (@redeem_debits_price Demo.services Demo.subsidy 1 Demo.course "policy-a" None
           Demo.world 14900 20000).
  - vm_compute. reflexivity.
  - vm_compute. reflexivity.
  - vm_compute. reflexivity.
  - lia.
  - vm_compute. reflexivity.
  - intros r. eexists. eexists. vm_compute. reflexivity.
Defined.

Lemma redeem_reuses_stored_row_witness :
  exists t w1,
    @redeem Demo.services Demo.subsidy 1 Demo.course "policy-a" (Some "alice/pending")
      Demo.busy_world
    = (Ok (Some t, true), w1) /\
    Ledger.uuid t = Ledger.uuid Demo.pending /\
    Ledger.quantity t = Ledger.quantity Demo.pending /\
    Ledger.state t = Ledger.COMMITTED /\
    In t (table w1) /\
    List.length (table w1) = List.length (table Demo.busy_world).
Proof.
  apply (@redeem_reuses_stored_row Demo.services Demo.subsidy 1 Demo.course "policy-a"
           (Some "alice/pending") Demo.busy_world 14900 14900 Demo.pending).
  - vm_compute. reflexivity.
  - vm_compute. reflexivity.
  - vm_compute. reflexivity.
  - lia.
  - vm_compute. reflexivity.
  - intros r. eexists. eexists. vm_compute. reflexivity.
Defined.

Lemma redeem_keeps_other_rows_witness :
  exists result w1,
    @redeem Demo.services Demo.subsidy 1 Demo.course "policy-a" (Some "alice/pending")
      Demo.busy_world
    = (result, w1) /\
    (List.length (table Demo.busy_world) <= List.length (table w1))%nat /\
    forall y, In y (table Demo.busy_world) ->
      In y (table w1) \/
      exists t, result = Ok (Some t, true) /\ Ledger.uuid y = Ledger.uuid t.
Proof.
  eexists. eexists. split; [vm_compute; reflexivity|].
  apply (@redeem_keeps_other_rows Demo.services Demo.subsidy 1 Demo.course "policy-a"
           (Some "alice/pending") Demo.busy_world).
  vm_compute. reflexivity.
Defined.

Lemma redeem_reference_link_witness :
  exists t w1 r rid,
    @redeem Demo.services Demo.subsidy 1 Demo.course "policy-a" None Demo.world
    = (Ok (Some t, true), w1) /\
    @enroll Demo.services 1 Demo.course r (lms Demo.world) = (Ok rid, lms w1) /\
    Ledger.uuid t = Ledger.uuid r /\
    Ledger.state t = Ledger.COMMITTED /\
    (truthy_str rid = true ->
     Ledger.reference_id t = rid /\
     Ledger.reference_type t = Some OCM_ENROLLMENT_REFERENCE_TYPE) /\
    (truthy_str rid = false ->
     Ledger.reference_id t = Ledger.reference_id r /\
     Ledger.reference_type t = Ledger.reference_type r).
Proof.
  eexists. eexists.
  edestruct (@redeem_reference_link Demo.services Demo.subsidy 1 Demo.course "policy-a"
               None Demo.world) as (r & rid & Hlink);
    [vm_compute; reflexivity|].
  exists r, rid. split; [vm_compute; reflexivity|exact Hlink].
Defined.

Lemma commit_transaction_idempotent_witness :
  exists t w1,
    @commit_transaction Demo.services Demo.subsidy Demo.pending
      (Some "fulfillment-0002") (Some OCM_ENROLLMENT_REFERENCE_TYPE) Demo.busy_world
    = (Ok t, w1) /\
    @commit_transaction Demo.services Demo.subsidy t
      (Some "fulfillment-0002") (Some OCM_ENROLLMENT_REFERENCE_TYPE) w1
    = (Ok t, w1).
Proof.
  eexists. eexists. split; [vm_compute; reflexivity|].
  apply (@commit_transaction_idempotent Demo.services Demo.subsidy Demo.pending _ _ _
           Demo.busy_world).
  vm_compute. reflexivity.
Defined.

Lemma commit_then_get_redemption_witness :
  exists t w1,
    @commit_transaction Demo.services Demo.subsidy Demo.pending
      (Some "fulfillment-0002") (Some OCM_ENROLLMENT_REFERENCE_TYPE) Demo.busy_world
    = (Ok t, w1) /\
    @get_redemption Demo.services Demo.subsidy 1 Demo.course w1 = (Ok (Some t), w1).
Proof.
  eexists. eexists. split; [vm_compute; reflexivity|].
  apply (@commit_then_get_redemption Demo.services Demo.subsidy Demo.pending _
           (Some "fulfillment-0002") (Some OCM_ENROLLMENT_REFERENCE_TYPE)
           Demo.busy_world).
  - reflexivity.
  - reflexivity.
  - reflexivity.
  - vm_compute. reflexivity.
  - vm_compute. reflexivity.
Defined.

Lemma transactions_queries_witness :
  In Demo.pending
    (@transactions_for_learner_and_content Demo.services Demo.subsidy 1 Demo.course
       Demo.busy_world) /\
  In Demo.committed (@transactions_for_learner Demo.services Demo.subsidy 1 Demo.busy_world).
Proof.
  split.
  - apply (proj1 (@transactions_queries Demo.services Demo.subsidy 1 Demo.course
                    Demo.busy_world Demo.pending)).
    split; vm_compute; auto.
  - apply (proj1 (proj2 (@transactions_queries Demo.services Demo.subsidy 1 Demo.course
                           Demo.busy_world Demo.committed))).
    vm_compute. auto.
Defined.

Lemma redeem_preserves_uniqueness_witness :
  exists result w1,
    @redeem Demo.services Demo.subsidy 1 Demo.course "policy-a" None Demo.world
    = (result, w1) /\
    one_redemption_per_pair (table Demo.world) /\
    one_redemption_per_pair (table w1).
Proof.
  assert (one_redemption_per_pair (@table Demo.services Demo.world)) as Huniq.
  { intros self l c a b [<-|[]] [<-|[]] _ _. reflexivity. }
  eexists. eexists. split; [vm_compute; reflexivity|]. split; [exact Huniq|].
  eapply (@redeem_preserves_uniqueness Demo.services Demo.subsidy 1 Demo.course
            "policy-a" None Demo.world).
  - exact Huniq.
  - intros p r Hp [<-|[]] Hk. vm_compute in Hk. discriminate.
  - vm_compute. reflexivity.
Defined.

Lemma get_priced_payload_witness :
  @ContentMetadataViewSet.get Demo.catalog_client "edX+DemoX" ("customer-1", [])
  = Ok {| ContentMetadataViewSet.data :=
            ContentMetadataViewSet.Payload
              [("content_uuid", JStr "00f8945b"); ("content_key", JStr "edX+DemoX");
               ("source", JStr "edX"); ("content_price", JStr "794.00")];
          ContentMetadataViewSet.status := 200 |}.
Proof.
  apply (proj1 (@get_priced_payload Demo.catalog_client "edX+DemoX" ("customer-1", [])
                  Demo.priced_metadata eq_refl)).
  - reflexivity.
  - reflexivity.
Defined.

Lemma get_never_raises_http_error_witness :
  @ContentMetadataViewSet.get Demo.catalog_client "edX+Down" ("customer-1", [])
  <> Raise (HTTPError 503 "Service Unavailable").
Proof.
  apply (proj1 (@get_never_raises_http_error Demo.catalog_client "edX+Down"
                  ("customer-1", []))).
Defined.

Lemma get_context_all_access_iff_null_witness :
  Rbac.get_context
    {| Rbac.user := 5; Rbac.role := {| Rbac.name := "enterprise_subsidy_admin" |};
       Rbac.enterprise_id := None |}
  = "*".
Proof.
  apply (proj2 (get_context_all_access_iff_null _)). reflexivity.
Defined.

Lemma get_context_injective_witness :
  let a := {| Rbac.user := 5; Rbac.role := {| Rbac.name := "enterprise_subsidy_learner" |};
              Rbac.enterprise_id := Some 0xee5e6b3a069a4947bb8dd2dbc323396c |} in
  let b := {| Rbac.user := 6; Rbac.role := {| Rbac.name := "enterprise_subsidy_admin" |};
              Rbac.enterprise_id := Some 0xee5e6b3a069a4947bb8dd2dbc323396c |} in
  Rbac.get_context a = "ee5e6b3a-069a-4947-bb8d-d2dbc323396c" /\
  Rbac.enterprise_id a = Rbac.enterprise_id b.
Proof.
  cbv zeta. split; [vm_compute; reflexivity|].
  apply get_context_injective.
  - intros u Hu. injection Hu as <-. lia.
  - intros u Hu. injection Hu as <-. lia.
  - vm_compute. reflexivity.
Defined.

Lemma price_for_content_within_one_cent_witness :
  two_decimals 14900 = "149.00" /\
  (exists price,
     @price_for_content Demo.services Demo.subsidy Demo.course = Ok price /\
     (price = 14900 \/ price = 14900 - 1)).
Proof.
  split; [reflexivity|].
  apply (proj1 (@price_for_content_within_one_cent Demo.services Demo.subsidy Demo.course
                  14900 ltac:(lia) eq_refl)).
Defined.
